(** * crypto_bot: the Bybit exchange client

    A shallow embedding of [crypto_bot/chalicelib/exchanges/bybit.py]
    (class [BybitClient]) and the properties of its retry loops, of the
    trade matcher and of the trade valuation, followed by the two handlers
    of [crypto_bot/app.py].

    Conventions of the embedding.
    - In the client, Python numbers (amounts, costs, prices, balances) are
      exact rationals [Q], the numbers of a run on [Fraction]s;
      [Decimal(str(x))] is the identity on them.  The trade valuation, whose
      result depends on the rounding of binary floating point, is embedded a
      second time on IEEE 754 binary64 floats, the numbers of the payloads of
      ccxt, in the module [Binary64]: there sums are taken in the order of
      the list and [round] is the one of Python's [float].
    - The exchange, the credential provider and the strategy-configuration
      store are external: they are oracles of a [world], indexed by a clock
      that advances by one at every external call, so that a call may
      succeed or fail differently each time it is made.
    - A method is a function from a [state] (the receiver, the clock and the
      trace of external calls and sleeps) to a [result] and a new state.
    - Logging is not modelled, except where building the log line can
      raise: the [self.client.id] that the handlers of [get_total_currency]
      read. *)

From Stdlib Require Import QArith Qround ZArith Lia Lqa.
From Stdlib Require PrimFloat SpecFloat FloatOps.
From stdpp Require Import gmap strings list.

(* ===================================================================== *)
(** ** Exceptions *)
(* ===================================================================== *)

(** The exception classes the client can meet: Python's builtins and the
    hierarchy of [ccxt.base.errors]. *)
Inductive exc_class :=
| Exception
| ValueError
| AttributeError
| TypeError
| NameError
| UnboundLocalError
| ArithmeticError
| ZeroDivisionError
| BaseError
| ExchangeError
| AuthenticationError
| BadRequest
| BadSymbol
| InsufficientFunds
| InvalidOrder
| OperationFailed
| NetworkError
| DDoSProtection
| RateLimitExceeded
| ExchangeNotAvailable
| OnMaintenance
| InvalidNonce
| RequestTimeout.

Definition class_eqb (c d : exc_class) : bool :=
  match c, d with
  | Exception, Exception | ValueError, ValueError
  | AttributeError, AttributeError | TypeError, TypeError
  | NameError, NameError | UnboundLocalError, UnboundLocalError
  | ArithmeticError, ArithmeticError | ZeroDivisionError, ZeroDivisionError
  | BaseError, BaseError | ExchangeError, ExchangeError
  | AuthenticationError, AuthenticationError | BadRequest, BadRequest
  | BadSymbol, BadSymbol | InsufficientFunds, InsufficientFunds
  | InvalidOrder, InvalidOrder | OperationFailed, OperationFailed
  | NetworkError, NetworkError | DDoSProtection, DDoSProtection
  | RateLimitExceeded, RateLimitExceeded
  | ExchangeNotAvailable, ExchangeNotAvailable
  | OnMaintenance, OnMaintenance | InvalidNonce, InvalidNonce
  | RequestTimeout, RequestTimeout => true
  | _, _ => false
  end.

(** The direct base class; [Exception] is the root of the classes here. *)
Definition base_class (c : exc_class) : option exc_class :=
  match c with
  | Exception => None
  | ValueError | AttributeError | TypeError | NameError | ArithmeticError
  | BaseError => Some Exception
  | UnboundLocalError => Some NameError
  | ZeroDivisionError => Some ArithmeticError
  | ExchangeError | OperationFailed => Some BaseError
  | AuthenticationError | BadRequest | InsufficientFunds | InvalidOrder =>
      Some ExchangeError
  | BadSymbol => Some BadRequest
  | NetworkError => Some OperationFailed
  | DDoSProtection | RateLimitExceeded | ExchangeNotAvailable | InvalidNonce
  | RequestTimeout => Some NetworkError
  | OnMaintenance => Some ExchangeNotAvailable
  end.

Fixpoint issubclass_within (depth : nat) (c d : exc_class) : bool :=
  class_eqb c d ||
  match depth with
  | O => false
  | S depth' =>
      match base_class c with
      | Some b => issubclass_within depth' b d
      | None => false
      end
  end.

(** No class above is more than five steps below [Exception]. *)
Definition issubclass (c d : exc_class) : bool := issubclass_within 6 c d.

(** A raised exception is an instance: an object with an identity, a class
    and a message. *)
Record exn := {
  exn_id : nat;
  exn_class : exc_class;
  exn_msg : string
}.

Definition isinstance (e : exn) (c : exc_class) : bool :=
  issubclass (exn_class e) c.

(** The objects that [==] compares in [create_limit_order]: the caught
    instance and a class object. *)
Inductive pyobj :=
| ClassObj (c : exc_class)
| ExnObj (e : exn).

(** Object identity, Python's [is]. *)
Definition py_is (a b : pyobj) : bool :=
  match a, b with
  | ClassObj c, ClassObj d => class_eqb c d
  | ExnObj e1, ExnObj e2 => Nat.eqb (exn_id e1) (exn_id e2)
  | _, _ => false
  end.

(** Neither the exception classes nor [type] define [__eq__], so [a == b]
    falls back to [object.__eq__], which is identity. *)
Definition py_eq (a b : pyobj) : bool := py_is a b.

Inductive result (A : Type) :=
| Returned (a : A)
| Raised (e : exn).
Arguments Returned {A} a.
Arguments Raised {A} e.

(** The [except] clause that takes an exception raised in a [try] body:
    every method lists [ccxt.NetworkError], [ccxt.ExchangeError] and
    [Exception], in this order. *)
Inductive handler := HNetwork | HExchange | HException.

Definition except_clause (e : exn) : handler :=
  if isinstance e NetworkError then HNetwork
  else if isinstance e ExchangeError then HExchange
  else HException.

(** Exceptions raised by the interpreter or by the client itself. *)
Definition value_error (msg : string) : exn :=
  {| exn_id := 0; exn_class := ValueError; exn_msg := msg |}.

Definition none_has_no_attribute (attr : string) : exn :=
  {| exn_id := 0; exn_class := AttributeError;
     exn_msg := "'NoneType' object has no attribute '" +:+ attr +:+ "'" |}.

Definition division_by_zero : exn :=
  {| exn_id := 0; exn_class := ZeroDivisionError;
     exn_msg := "division by zero" |}.

Definition unbound_local (name : string) : exn :=
  {| exn_id := 0; exn_class := UnboundLocalError;
     exn_msg := "cannot access local variable '" +:+ name +:+ "'" |}.

Definition not_callable : exn :=
  {| exn_id := 0; exn_class := TypeError;
     exn_msg := "'decimal.Decimal' object is not callable" |}.

(* ===================================================================== *)
(** ** Data *)
(* ===================================================================== *)

(** A fill, as [fetch_my_trades] reports it: a dict of which the client
    reads the keys [side], [amount] and [cost]; a missing key is [None]. *)
Record trade := {
  side : option string;
  amount : option Q;
  cost : option Q;
  timestamp : Z
}.

Record order := {
  order_id : string;
  order_symbol : string;
  order_side : string;
  order_amount : Q;
  order_price : Q;
  order_status : string
}.

Record ticker := {
  bid : option Q;
  ask : option Q;
  last : option Q
}.

Record config := {
  cfg_symbol : string;
  cfg_currency : string
}.

(** The client object built by [ccxt.bybit({...})]. *)
Record ccxt_exchange := {
  apiKey : string;
  secret : string;
  timeout : Z;
  sandbox_mode : bool
}.

Definition set_sandbox_mode (exchange : ccxt_exchange) (enabled : bool)
  : ccxt_exchange :=
  {| apiKey := apiKey exchange; secret := secret exchange;
     timeout := timeout exchange; sandbox_mode := enabled |}.

(** The client that [connect] builds: [ccxt.bybit] with the credentials and
    a request timeout of 6000 ms, switched to the sandbox when asked. *)
Definition new_exchange (api_key api_secret : string) (sandbox : bool)
  : ccxt_exchange :=
  let exchange :=
    {| apiKey := api_key; secret := api_secret; timeout := 6000;
       sandbox_mode := false |} in
  if sandbox then set_sandbox_mode exchange true else exchange.

(** The receiver: [self.client], [self.markets], [self.base_currency]. *)
Record BybitClient := {
  client : option ccxt_exchange;
  markets : option (list string);
  base_currency : string
}.

(** An argument whose type the client tests with [isinstance]. *)
Inductive pyarg :=
| PStr (s : string)
| PNone
| PInt (z : Z).

(** [x == s] for a value read with [dict.get] and a string literal. *)
Definition side_is (x : option string) (s : string) : bool :=
  match x with
  | Some v => String.eqb v s
  | None => false
  end.

(** [l[start:]] *)
Definition slice_from {A} (l : list A) (start : Z) : list A :=
  let len := Z.of_nat (length l) in
  let lo := if (start <? 0)%Z then Z.max (len + start) 0 else Z.min start len in
  drop (Z.to_nat lo) l.

(** The integer nearest to [x], the even one at a tie; and
    [round(x, ndigits)] of an exact number: the nearest multiple of
    [10^-ndigits], ties to the even one. *)
Definition round_half_even (x : Q) : Z :=
  let f := Qfloor x in
  match (x - inject_Z f ?= 1 # 2)%Q with
  | Lt => f
  | Gt => (f + 1)%Z
  | Eq => if Z.even f then f else (f + 1)%Z
  end.

Definition py_round (x : Q) (ndigits : nat) : Q :=
  let scale := inject_Z (10 ^ Z.of_nat ndigits) in
  (inject_Z (round_half_even (x * scale)) / scale)%Q.

(** [a / b] *)
Definition py_div (a b : Q) : result Q :=
  if Qeq_bool b 0 then Raised division_by_zero else Returned (a / b)%Q.

(* ===================================================================== *)
(** ** TradeMatcher and TradeValuation: the pure parts *)
(* ===================================================================== *)

(** The [for i, trade in enumerate(reversed(trades))] loop of
    [get_most_recent_trade]; [rest] is what is left of [reversed(trades)].
    The empty [rest] is the [else] clause of the loop. *)
Fixpoint scan_reversed (trades : list trade) (prev_trade_side : option string)
    (i : nat) (rest : list trade) : list trade :=
  match rest with
  | [] => trades
  | trade :: rest' =>
      let side := side trade in
      if side_is prev_trade_side "buy" && side_is side "sell" then
        slice_from trades (- Z.of_nat i)
      else if side_is side "buy" then
        scan_reversed trades (Some "buy") (S i) rest'
      else if side_is side "sell" then
        scan_reversed trades (Some "sell") (S i) rest'
      else
        scan_reversed trades prev_trade_side (S i) rest'
  end.

(** What [get_most_recent_trade] returns once [fetch_my_trades] has
    answered [trades]. *)
Definition most_recent_trade_of (trades : list trade) : list trade :=
  match trades with
  | [] => []
  | _ => scan_reversed trades None 0 (rev trades)
  end.

(** One iteration of the loop of [get_trade_value_usd] on its accumulators
    [(trade_value_usd, amount_owned, amount_bought)]. *)
Definition value_step (acc : Q * Q * Q) (trade : trade) : Q * Q * Q :=
  let '(trade_value_usd, amount_owned, amount_bought) := acc in
  let amount := default 0%Q (amount trade) in
  if side_is (side trade) "buy" then
    ((trade_value_usd + default 0 (cost trade))%Q,
     (amount_owned + amount)%Q,
     (amount_bought + amount)%Q)
  else if side_is (side trade) "sell" then
    (trade_value_usd, (amount_owned - amount)%Q, amount_bought)
  else acc.

Definition get_trade_value_usd (trades : list trade) : result Q :=
  let '(trade_value_usd, amount_owned, amount_bought) :=
    fold_left value_step trades (0%Q, 0%Q, 0%Q) in
  if Qeq_bool amount_bought 0 then Returned 0%Q
  else
    match py_div amount_owned amount_bought with
    | Returned q => Returned (trade_value_usd * py_round q 2)%Q
    | Raised e => Raised e
    end.

(** The quantities of the valuation as the specification words them: sums
    over the buy fills and over the sell fills. *)
Definition is_buy (t : trade) : bool := side_is (side t) "buy".
Definition is_sell (t : trade) : bool := side_is (side t) "sell".

Definition Qsum (l : list Q) : Q := fold_right Qplus 0%Q l.

Definition total_bought (trades : list trade) : Q :=
  Qsum (map (fun t => default 0%Q (amount t)) (filter is_buy trades)).

Definition total_cost (trades : list trade) : Q :=
  Qsum (map (fun t => default 0%Q (cost t)) (filter is_buy trades)).



(* ===================================================================== *)
(** ** TradeValuation on binary floating point *)
(* ===================================================================== *)

(** [get_trade_value_usd] again, on the numbers that ccxt parses out of the
    payload of the exchange: Python [float]s, which are IEEE 754 binary64
    numbers, here the primitive floats of the kernel.  Sums are taken in
    the order of the list, every operation rounds to the nearest float, and
    [round] is the one of [float]. *)
Module Binary64.

(** A number of the valuation: an [int] (the literal 0 of the accumulators
    and of the [.get(key, 0)] defaults) or a [float]. *)
Inductive number :=
| Int (z : Z)
| Float (f : PrimFloat.float).

(** The float nearest to [num / den], ties to even, for [0 <= num] and
    [0 < den]: the quotient is taken with 1200 binary digits after the
    point and one more that tells whether anything is left, and then
    rounded to the format. *)
Definition nearest_double (num den : Z) : PrimFloat.float :=
  let scaled := Z.shiftl num 1200 in
  let sticky := if (scaled mod den =? 0)%Z then 0%Z else 1%Z in
  FloatOps.SF2Prim
    (SpecFloat.binary_normalize FloatOps.prec FloatOps.emax
       (2 * (scaled / den) + sticky) (-1201) false).

(** [float(z)]: the float nearest to the integer.  (Python raises
    [OverflowError] for an integer beyond the range of the floats; the
    integers of the valuation are 0.) *)
Definition of_Z (z : Z) : PrimFloat.float :=
  FloatOps.SF2Prim
    (SpecFloat.binary_normalize FloatOps.prec FloatOps.emax z 0 false).

Definition to_float (a : number) : PrimFloat.float :=
  match a with
  | Int z => of_Z z
  | Float f => f
  end.

(** [a + b], [a - b] and [a * b]: exact on two [int]s; otherwise the [int]
    operand is converted and the operation is the one of the floats. *)
Definition py_add (a b : number) : number :=
  match a, b with
  | Int x, Int y => Int (x + y)
  | _, _ => Float (PrimFloat.add (to_float a) (to_float b))
  end.

Definition py_sub (a b : number) : number :=
  match a, b with
  | Int x, Int y => Int (x - y)
  | _, _ => Float (PrimFloat.sub (to_float a) (to_float b))
  end.

Definition py_mul (a b : number) : number :=
  match a, b with
  | Int x, Int y => Int (x * y)
  | _, _ => Float (PrimFloat.mul (to_float a) (to_float b))
  end.

(** [a == 0]: both zeros of the floats are equal to 0, a nan is not. *)
Definition is_zero (a : number) : bool :=
  match a with
  | Int z => (z =? 0)%Z
  | Float f => PrimFloat.eqb f PrimFloat.zero
  end.

(** [a / b], which is a [float] also for two [int]s (then the float nearest
    to the quotient). *)
Definition py_div (a b : number) : result PrimFloat.float :=
  if is_zero b then Raised division_by_zero
  else
    match a, b with
    | Int x, Int y =>
        let q := nearest_double (Z.abs x) (Z.abs y) in
        Returned (if xorb (x <? 0)%Z (y <? 0)%Z then PrimFloat.opp q else q)
    | _, _ => Returned (PrimFloat.div (to_float a) (to_float b))
    end.

(** The absolute value of the finite float with the mantissa [m] and the
    exponent [e]. *)
Definition magnitude (m : positive) (e : Z) : Q :=
  (inject_Z (Z.pos m) * Qpower 2 e)%Q.

(** [round(x, ndigits)] of a [float], for [0 <= ndigits]: the value of [x]
    is rounded to the nearest multiple of [10^-ndigits], ties (of the
    binary value, not of the decimal literal it was written as) to the even
    one, and the result is the float nearest to that decimal; the sign is
    kept, also on a zero.  Zeros, infinities and nans round to themselves. *)
Definition py_round (x : PrimFloat.float) (ndigits : nat) : PrimFloat.float :=
  match FloatOps.Prim2SF x with
  | SpecFloat.S754_finite s m e =>
      let scale := (10 ^ Z.of_nat ndigits)%Z in
      let n := round_half_even (magnitude m e * inject_Z scale) in
      let r := nearest_double n scale in
      if s then PrimFloat.opp r else r
  | _ => x
  end.

(** A fill, of which the valuation reads the keys [side], [amount] and
    [cost]; a missing key is [None]. *)
Record trade := {
  side : option string;
  amount : option PrimFloat.float;
  cost : option PrimFloat.float
}.

(** [trade.get(key, 0)] *)
Definition get_or_0 (x : option PrimFloat.float) : number :=
  match x with
  | Some f => Float f
  | None => Int 0
  end.

(** One iteration of the loop of [get_trade_value_usd] on its accumulators
    [(trade_value_usd, amount_owned, amount_bought)]. *)
Definition value_step (acc : number * number * number) (trade : trade)
  : number * number * number :=
  let '(trade_value_usd, amount_owned, amount_bought) := acc in
  let amount := get_or_0 (amount trade) in
  if side_is (side trade) "buy" then
    (py_add trade_value_usd (get_or_0 (cost trade)),
     py_add amount_owned amount,
     py_add amount_bought amount)
  else if side_is (side trade) "sell" then
    (trade_value_usd, py_sub amount_owned amount, amount_bought)
  else acc.

Definition get_trade_value_usd (trades : list trade) : result number :=
  let '(trade_value_usd, amount_owned, amount_bought) :=
    fold_left value_step trades (Int 0, Int 0, Int 0) in
  if is_zero amount_bought then Returned (Int 0)
  else
    match py_div amount_owned amount_bought with
    | Returned q =>
        let proportion_owned := py_round q 2 in
        Returned (py_mul trade_value_usd (Float proportion_owned))
    | Raised e => Raised e
    end.

(** The quantities of the valuation as the specification words them: the
    total bought and the total cost sum over the buy fills, the amount
    owned nets the amounts of the buy and of the sell fills; all three from
    0 and in the order of the list. *)
Definition is_buy (t : trade) : bool := side_is (side t) "buy".
Definition is_sell (t : trade) : bool := side_is (side t) "sell".

Definition total_bought (trades : list trade) : number :=
  fold_left py_add (map (fun t => get_or_0 (amount t)) (filter is_buy trades))
    (Int 0).

Definition total_cost (trades : list trade) : number :=
  fold_left py_add (map (fun t => get_or_0 (cost t)) (filter is_buy trades))
    (Int 0).

Definition net (owned : number) (t : trade) : number :=
  if is_buy t then py_add owned (get_or_0 (amount t))
  else if is_sell t then py_sub owned (get_or_0 (amount t))
  else owned.

Definition amount_owned (trades : list trade) : number :=
  fold_left net trades (Int 0).

(** [n] is the integer nearest to [y], the even one of the two when [y] is
    half way. *)
Definition nearest_ties_even (y : Q) (n : Z) : Prop :=
  (inject_Z n - (1 # 2) <= y)%Q /\
  (y <= inject_Z n + (1 # 2))%Q /\
  ((y == inject_Z n - (1 # 2))%Q \/ (y == inject_Z n + (1 # 2))%Q ->
   Z.even n = true).

(** Fills with whole numbers, as the examples of the specification give
    them. *)
Definition buy_fill (a c : Z) : trade :=
  {| side := Some "buy"; amount := Some (of_Z a); cost := Some (of_Z c) |}.

Definition sell_fill (a : Z) : trade :=
  {| side := Some "sell"; amount := Some (of_Z a); cost := None |}.

(** [num / den] of two integers, as a [float]. *)
Definition ratio (num den : Z) : PrimFloat.float :=
  PrimFloat.div (of_Z num) (of_Z den).

End Binary64.

(* ===================================================================== *)
(** ** The outside world and the state of a run *)
(* ===================================================================== *)

(** What an external call answers. *)
Inductive outcome (A : Type) :=
| Ok (a : A)
| Fail (e : exn).
Arguments Ok {A} a.
Arguments Fail {A} e.

(** The external collaborators.  The first argument of every oracle is the
    clock at the time of the call.  [api_key_manager] stands for
    [utils.APIKeyManager(secret_name)] and its two getters (it answers the
    pair of the key and the secret); [get_active_strategy_configs] for
    [trade_processing.get_active_strategy_configs]; the others are the
    methods of the ccxt client.  The payload of [fetch_balance] is a dict
    of dicts: [balance["free"]] maps a currency to its free amount and
    [balance[currency]] has the keys [free], [used] and [total]. *)
Record world := {
  api_key_manager : nat -> string -> outcome (string * string);
  load_markets : nat -> ccxt_exchange -> outcome (list string);
  ccxt_create_limit_order :
    nat -> ccxt_exchange -> string -> string -> Q -> Q -> outcome order;
  fetch_open_orders : nat -> ccxt_exchange -> string -> outcome (list order);
  fetch_balance : nat -> ccxt_exchange -> outcome (gmap string (gmap string Q));
  fetch_ticker : nat -> ccxt_exchange -> string -> outcome ticker;
  fetch_my_trades : nat -> ccxt_exchange -> string -> outcome (list trade);
  get_active_strategy_configs : nat -> outcome (list config)
}.

Inductive call :=
| ApiKeyManager (secret_name : string)
| LoadMarkets
| CreateLimitOrder (symbol side : string) (amount order_price : Q)
| FetchOpenOrders (symbol : string)
| FetchBalance
| FetchTicker (symbol : string)
| FetchMyTrades (symbol : string)
| GetActiveStrategyConfigs.

Inductive event :=
| Call (c : call)
| Sleep (seconds : Z).

(** The trace has the newest event first. *)
Record state := {
  self : BybitClient;
  clock : nat;
  trace : list event
}.

Definition M (A : Type) : Type := state -> result A * state.

Definition ret {A} (a : A) : M A := fun s => (Returned a, s).

Definition raise {A} (e : exn) : M A := fun s => (Raised e, s).

Definition bind {A B} (m : M A) (k : A -> M B) : M B :=
  fun s =>
    match m s with
    | (Returned a, s') => k a s'
    | (Raised e, s') => (Raised e, s')
    end.

Notation "'let*' x ':=' m 'in' k" := (bind m (fun x => k))
  (at level 10, x pattern, k at level 200).

(** A pure computation that may raise. *)
Definition lift {A} (r : result A) : M A := fun s => (r, s).

Definition record (ev : event) (s : state) : state :=
  {| self := self s; clock := clock s; trace := ev :: trace s |}.

Definition tick (s : state) : state :=
  {| self := self s; clock := S (clock s); trace := trace s |}.

(** An external call: it is written to the trace, the clock advances, and
    the oracle's answer at the time of the call is returned or raised. *)
Definition external {A} (c : call) (oracle : nat -> outcome A) : M A :=
  fun s =>
    let s' := tick (record (Call c) s) in
    match oracle (clock s) with
    | Ok a => (Returned a, s')
    | Fail e => (Raised e, s')
    end.

(** [time.sleep(seconds)] *)
Definition sleep (seconds : Z) : M unit :=
  fun s => (Returned tt, record (Sleep seconds) s).

(** [self.client.<attr>]: fails on [None]. *)
Definition client_attr (attr : string) : M ccxt_exchange :=
  fun s =>
    match client (self s) with
    | Some c => (Returned c, s)
    | None => (Raised (none_has_no_attribute attr), s)
    end.

Definition set_markets (m : list string) : M unit :=
  fun s =>
    (Returned tt,
     {| self := {| client := client (self s); markets := Some m;
                   base_currency := base_currency (self s) |};
        clock := clock s; trace := trace s |}).

Definition set_client (c : ccxt_exchange) : M unit :=
  fun s =>
    (Returned tt,
     {| self := {| client := Some c; markets := markets (self s);
                   base_currency := base_currency (self s) |};
        clock := clock s; trace := trace s |}).

(** The loop shared by the methods:
<<
    retries = 0
    while retries < max_retries:
        try: <attempt>                      (every path returns)
        except ccxt.NetworkError as e: <on_network>; retries += 1
        except ccxt.ExchangeError as e: <on_exchange>
        except Exception as e: raise e
    <fallthrough>
>>
    [remaining] is [max_retries - retries].  [on_network] answers [Some a]
    when it returns [a] from the method and [None] when it reaches
    [retries += 1]. *)
Fixpoint while_retries {A} (attempt : M A) (on_network : exn -> M (option A))
    (on_exchange : exn -> M A) (fallthrough : A) (remaining : nat) : M A :=
  fun s =>
    match remaining with
    | O => (Returned fallthrough, s)
    | S remaining' =>
        match attempt s with
        | (Returned a, s1) => (Returned a, s1)
        | (Raised e, s1) =>
            match except_clause e with
            | HNetwork =>
                match on_network e s1 with
                | (Returned (Some a), s2) => (Returned a, s2)
                | (Returned None, s2) =>
                    while_retries attempt on_network on_exchange fallthrough
                      remaining' s2
                | (Raised e', s2) => (Raised e', s2)
                end
            | HExchange => on_exchange e s1
            | HException => (Raised e, s1)
            end
        end
    end.

(** The same loop for a method whose [except Exception] clause does more
    than [raise e]: [on_unexpected] is the whole clause. *)
Fixpoint while_retries_logged {A} (attempt : M A)
    (on_network : exn -> M (option A)) (on_exchange : exn -> M A)
    (on_unexpected : exn -> M A) (fallthrough : A) (remaining : nat) : M A :=
  fun s =>
    match remaining with
    | O => (Returned fallthrough, s)
    | S remaining' =>
        match attempt s with
        | (Returned a, s1) => (Returned a, s1)
        | (Raised e, s1) =>
            match except_clause e with
            | HNetwork =>
                match on_network e s1 with
                | (Returned (Some a), s2) => (Returned a, s2)
                | (Returned None, s2) =>
                    while_retries_logged attempt on_network on_exchange
                      on_unexpected fallthrough remaining' s2
                | (Raised e', s2) => (Raised e', s2)
                end
            | HExchange => on_exchange e s1
            | HException => on_unexpected e s1
            end
        end
    end.

(** The usual network handler: [time.sleep(3); retries += 1]. *)
Definition sleep_and_retry {A} (e : exn) : M (option A) :=
  let* _ := sleep 3 in ret None.

(* ===================================================================== *)
(** ** The methods of [BybitClient] *)
(* ===================================================================== *)

(** [__init__] *)
Definition BybitClient_init (base_currency : string) : result BybitClient :=
  if String.eqb base_currency "" then Raised (value_error "base currency not set")
  else Returned {| client := None; markets := None;
                   base_currency := base_currency |}.

Section Methods.

Variable w : world.

Definition connect_attempt (secret_name : string) (sandbox : bool) : M bool :=
  let* (api_key, api_secret) := external (ApiKeyManager secret_name)
      (fun t => api_key_manager w t secret_name) in
  let exchange := new_exchange api_key api_secret sandbox in
  let* markets := external LoadMarkets (fun t => load_markets w t exchange) in
  let* _ := set_markets markets in
  let* _ := set_client exchange in
  ret true.

Definition connect (secret_name : string) (sandbox : bool) (max_retries : Z)
  : M bool :=
  while_retries (connect_attempt secret_name sandbox)
    sleep_and_retry (fun _ => ret false) false (Z.to_nat max_retries).

Definition create_limit_order_attempt (symbol side : string)
    (amount order_price : Q) : M (option order) :=
  let* c := client_attr "create_limit_order" in
  let* order := external (CreateLimitOrder symbol side amount order_price)
    (fun t => ccxt_create_limit_order w t c symbol side amount order_price) in
  ret (Some order).

(** The network handler of [create_limit_order]. *)
Definition create_limit_order_on_network (symbol : string) (e : exn)
  : M (option (option order)) :=
  if py_eq (ExnObj e) (ClassObj RequestTimeout) then
    let* c := client_attr "fetch_open_orders" in
    let* orders := external (FetchOpenOrders symbol)
      (fun t => fetch_open_orders w t c symbol) in
    match orders with
    | first :: _ => ret (Some (Some first))
    | [] => let* _ := sleep 3 in ret None
    end
  else let* _ := sleep 3 in ret None.

Definition create_limit_order (symbol side : string) (amount order_price : Q)
    (max_retries : Z) : M (option order) :=
  while_retries (create_limit_order_attempt symbol side amount order_price)
    (create_limit_order_on_network symbol) (fun _ => ret None) None
    (Z.to_nat max_retries).

Definition get_total_currency_attempt (currency : string) : M (option Q) :=
  let* c := client_attr "fetch_balance" in
  let* balance := external FetchBalance (fun t => fetch_balance w t c) in
  match balance !! currency with
  | Some entry =>
      let total_currency := default 0%Q (entry !! "total") in
      ret (Some total_currency)
  | None => ret None
  end.

(** The three [except] clauses of [get_total_currency] begin with a log
    line that reads [self.client.id]; on a receiver without a client this
    raises in the clause, and that exception is the one the caller gets. *)
Definition get_total_currency (currency : string) (max_retries : Z)
  : M (option Q) :=
  while_retries_logged (get_total_currency_attempt currency)
    (fun e => let* _ := client_attr "id" in sleep_and_retry e)
    (fun _ => let* _ := client_attr "id" in ret None)
    (fun e => let* _ := client_attr "id" in raise e)
    None (Z.to_nat max_retries).

(** The input validation of [get_bid_ask] and [get_last_price]; it answers
    the client and the symbol as a string. *)
Definition validate_inputs (symbol : pyarg) : M (ccxt_exchange * string) :=
  fun s =>
    match client (self s) with
    | None =>
        (Raised (value_error "exchange must be a valid ccxt.Exchange object"), s)
    | Some c =>
        match symbol with
        | PStr sym => (Returned (c, sym), s)
        | _ => (Raised (value_error "symbol must be a string"), s)
        end
    end.

Definition get_bid_ask_attempt (symbol : pyarg) : M (option Q * option Q) :=
  let* (c, sym) := validate_inputs symbol in
  let* ticker := external (FetchTicker sym) (fun t => fetch_ticker w t c sym) in
  ret (bid ticker, ask ticker).

Definition get_bid_ask (symbol : pyarg) (max_retries : Z)
  : M (option Q * option Q) :=
  while_retries (get_bid_ask_attempt symbol)
    sleep_and_retry (fun _ => ret (None, None)) (None, None)
    (Z.to_nat max_retries).

Definition get_last_price_attempt (symbol : pyarg) : M (option Q) :=
  let* (c, sym) := validate_inputs symbol in
  let* ticker := external (FetchTicker sym) (fun t => fetch_ticker w t c sym) in
  ret (last ticker).

Definition get_last_price (symbol : pyarg) (max_retries : Z) : M (option Q) :=
  while_retries (get_last_price_attempt symbol)
    sleep_and_retry (fun _ => ret None) None (Z.to_nat max_retries).

Definition get_most_recent_trade_attempt (symbol : string)
  : M (option (list trade)) :=
  let* c := client_attr "fetch_my_trades" in
  let* trades := external (FetchMyTrades symbol)
    (fun t => fetch_my_trades w t c symbol) in
  ret (Some (most_recent_trade_of trades)).

(** The exchange handler re-raises; leaving the loop, the method ends
    without a [return], which is [None]. *)
Definition get_most_recent_trade (symbol : string) (max_retries : Z)
  : M (option (list trade)) :=
  while_retries (get_most_recent_trade_attempt symbol)
    sleep_and_retry (fun e => raise e) None (Z.to_nat max_retries).

(** The [for config in active_configs] loop of [get_account_allocation];
    [if trades:] holds for a list with a fill and fails for the empty list
    and for [None]. *)
Fixpoint allocate (active_configs : list config)
    (allocation_dict : gmap string (option Q)) : M (gmap string (option Q)) :=
  match active_configs with
  | [] => ret allocation_dict
  | config :: rest =>
      let symbol := cfg_symbol config in
      let currency := cfg_currency config in
      let* trades := get_most_recent_trade symbol 3 in
      match trades with
      | Some (fill :: fills) =>
          let* trade_value_usd := lift (get_trade_value_usd (fill :: fills)) in
          allocate rest (<[currency := Some trade_value_usd]> allocation_dict)
      | _ =>
          allocate rest (<[currency := Some 0%Q]> allocation_dict)
      end
  end.

Definition get_account_allocation_attempt
  : M (option (gmap string (option Q))) :=
  let* c := client_attr "fetch_balance" in
  let* balance := external FetchBalance (fun t => fetch_balance w t c) in
  let* free := (fun s =>
             match balance !! "free" with
             | Some free => (Returned free, s)
             | None => (Raised (none_has_no_attribute "get"), s)
             end) in
  let* base := (fun s => (Returned (base_currency (self s)), s)) in
  let available_funds_usd : option Q := free !! base in
  let* active_configs := external GetActiveStrategyConfigs
    (fun t => get_active_strategy_configs w t) in
  let allocation_dict : gmap string (option Q) :=
    <["USD" := available_funds_usd]> ∅ in
  let* allocation_dict := allocate active_configs allocation_dict in
  ret (Some allocation_dict).

(** Leaving the loop, the method ends without a [return]. *)
Definition get_account_allocation (max_retries : Z)
  : M (option (gmap string (option Q))) :=
  while_retries get_account_allocation_attempt
    sleep_and_retry (fun _ => ret None) None (Z.to_nat max_retries).

(** The local variables of [get_total_usd].  [sum] is assigned in the body,
    so the name is local in the whole body and has no value before the
    assignment. *)
Record total_usd_locals := {
  local_allocation_dict : option (option (gmap string (option Q)));
  local_sum : option Q
}.

(** Reading the local variable [sum]. *)
Definition load_sum (locals : total_usd_locals) : M Q :=
  match local_sum locals with
  | Some v => ret v
  | None => raise (unbound_local "sum")
  end.

(** [get_total_usd]: in [Decimal(str(sum(allocation_dict.values())))] the
    callee [sum] is read before its argument is evaluated; a value of
    [sum] would be a [Decimal], which cannot be called.  The body has no
    [return]. *)
Definition get_total_usd : M unit :=
  let locals := {| local_allocation_dict := None; local_sum := None |} in
  let* allocation_dict := get_account_allocation 3 in
  let locals :=
    {| local_allocation_dict := Some allocation_dict;
       local_sum := local_sum locals |} in
  let* callee := load_sum locals in
  raise not_callable.

End Methods.

(* ===================================================================== *)
(** ** Scenarios *)
(* ===================================================================== *)

Definition buy_fill (ts : Z) (a c : Q) : trade :=
  {| side := Some "buy"; amount := Some a; cost := Some c; timestamp := ts |}.

(** A sell fill as the examples of the specification give it: no cost. *)
Definition sell_fill (ts : Z) (a : Q) : trade :=
  {| side := Some "sell"; amount := Some a; cost := None; timestamp := ts |}.

Definition demo_exchange : ccxt_exchange := new_exchange "key" "secret" false.

Definition unconnected : state :=
  {| self := {| client := None; markets := None; base_currency := "USDT" |};
     clock := 0; trace := [] |}.

Definition connected : state :=
  {| self := {| client := Some demo_exchange; markets := Some ["BTC/USDT"];
                base_currency := "USDT" |};
     clock := 0; trace := [] |}.

Definition request_timeout : exn :=
  {| exn_id := 1; exn_class := RequestTimeout;
     exn_msg := "bybit request timed out" |}.

Definition bad_symbol : exn :=
  {| exn_id := 2; exn_class := BadSymbol;
     exn_msg := "bybit does not have market symbol" |}.

Definition placed_order : order :=
  {| order_id := "1001"; order_symbol := "BTC/USDT"; order_side := "buy";
     order_amount := 1 # 100; order_price := 501 # 5;
     order_status := "open" |}.

(** Every request times out, the order has landed all the same. *)
Definition timeout_world : world :=
  {| api_key_manager := fun _ _ => Ok ("key", "secret");
     load_markets := fun _ _ => Fail request_timeout;
     ccxt_create_limit_order := fun _ _ _ _ _ _ => Fail request_timeout;
     fetch_open_orders := fun _ _ _ => Ok [placed_order];
     fetch_balance := fun _ _ => Fail request_timeout;
     fetch_ticker := fun _ _ _ => Fail request_timeout;
     fetch_my_trades := fun _ _ _ => Fail request_timeout;
     get_active_strategy_configs := fun _ => Ok [] |}.

(** The exchange rejects every request. *)
Definition rejecting_world : world :=
  {| api_key_manager := fun _ _ => Ok ("key", "secret");
     load_markets := fun _ _ => Fail bad_symbol;
     ccxt_create_limit_order := fun _ _ _ _ _ _ => Fail bad_symbol;
     fetch_open_orders := fun _ _ _ => Fail bad_symbol;
     fetch_balance := fun _ _ => Fail bad_symbol;
     fetch_ticker := fun _ _ _ => Fail bad_symbol;
     fetch_my_trades := fun _ _ _ => Fail bad_symbol;
     get_active_strategy_configs := fun _ => Ok [] |}.

Definition demo_ticker : ticker :=
  {| bid := Some 100%Q; ask := Some (201 # 2); last := Some 100%Q |}.

(** A world without failures: the balance, the active strategies and the
    fill history of every symbol are fixed. *)
Definition steady_world (balance : gmap string (gmap string Q))
    (configs : list config) (history : string -> list trade) : world :=
  {| api_key_manager := fun _ _ => Ok ("key", "secret");
     load_markets := fun _ _ => Ok ["BTC/USDT"];
     ccxt_create_limit_order := fun _ _ _ _ _ _ => Ok placed_order;
     fetch_open_orders := fun _ _ _ => Ok [];
     fetch_balance := fun _ _ => Ok balance;
     fetch_ticker := fun _ _ _ => Ok demo_ticker;
     fetch_my_trades := fun _ _ symbol => Ok (history symbol);
     get_active_strategy_configs := fun _ => Ok configs |}.

(** 50 USDT free and nothing else. *)
Definition demo_balance : gmap string (gmap string Q) :=
  <["free" := {["USDT" := 50%Q]}]>
    (<["USDT" := <["free" := 50%Q]> (<["used" := 0%Q]> {["total" := 50%Q]})]> ∅).

Definition demo_configs : list config :=
  [ {| cfg_symbol := "BTC/USDT"; cfg_currency := "BTC" |};
    {| cfg_symbol := "ETH/USDT"; cfg_currency := "ETH" |} ].

(** A closed cycle followed by two buys for BTC/USDT, nothing for the other
    symbols. *)
Definition demo_history (symbol : string) : list trade :=
  if String.eqb symbol "BTC/USDT" then
    [buy_fill 1 1 100; sell_fill 2 1; buy_fill 3 1 90; buy_fill 4 1 110]
  else [].

Definition demo_world : world :=
  steady_world demo_balance demo_configs demo_history.

(** The balance request times out once and is answered afterwards. *)
Definition flaky_world : world :=
  {| api_key_manager := fun _ _ => Ok ("key", "secret");
     load_markets := fun _ _ => Ok ["BTC/USDT"];
     ccxt_create_limit_order := fun _ _ _ _ _ _ => Ok placed_order;
     fetch_open_orders := fun _ _ _ => Ok [];
     fetch_balance :=
       fun t _ => if Nat.eqb t 0 then Fail request_timeout else Ok demo_balance;
     fetch_ticker := fun _ _ _ => Ok demo_ticker;
     fetch_my_trades := fun _ _ symbol => Ok (demo_history symbol);
     get_active_strategy_configs := fun _ => Ok demo_configs |}.

(* ===================================================================== *)
(** ** Predicates on runs *)
(* ===================================================================== *)

(** The call fails with an exception that the network clause takes. *)
Definition raises_network {A} (o : outcome A) : Prop :=
  exists e, o = Fail e /\ except_clause e = HNetwork.

(** Every request to the exchange fails with a network error. *)
Definition network_down (w : world) : Prop :=
  forall (t : nat) (c : ccxt_exchange),
    raises_network (load_markets w t c) /\
    (forall symbol side amount order_price,
        raises_network
          (ccxt_create_limit_order w t c symbol side amount order_price)) /\
    raises_network (fetch_balance w t c) /\
    (forall symbol, raises_network (fetch_ticker w t c symbol)) /\
    (forall symbol, raises_network (fetch_my_trades w t c symbol)).

(** The credential provider answers. *)
Definition credentials_available (w : world) : Prop :=
  forall (t : nat) (secret_name : string),
    exists cred, api_key_manager w t secret_name = Ok cred.

(** The trace of [n] attempts that each made the calls [calls] (newest
    first) and then slept three seconds. *)
Definition failed_attempts (n : nat) (calls : list event) : list event :=
  concat (replicate n (Sleep 3 :: calls)).

(** What [get_total_currency] makes of a balance payload. *)
Definition total_in (balance : gmap string (gmap string Q)) (currency : string)
  : option Q :=
  match balance !! currency with
  | Some entry => Some (default 0%Q (entry !! "total"))
  | None => None
  end.

(** A run only adds events to the trace. *)
Definition grows_trace {A} (m : M A) : Prop :=
  forall s, exists evs, trace (snd (m s)) = evs ++ trace s.

(** Only [connect] writes to the receiver. *)
Definition keeps_self {A} (m : M A) : Prop :=
  forall s, self (snd (m s)) = self s.


(** Unfolding an attempt down to the oracles. *)
Ltac run_attempt :=
  unfold connect_attempt, create_limit_order_attempt,
    get_total_currency_attempt, get_bid_ask_attempt, get_last_price_attempt,
    get_most_recent_trade_attempt, get_account_allocation_attempt,
    bind, client_attr, validate_inputs, external, set_markets, set_client,
    ret, raise; simpl.

(* ===================================================================== *)
(** ** Measures of a trace *)
(* ===================================================================== *)

Definition is_request (ev : event) : bool :=
  match ev with
  | Call _ => true
  | Sleep _ => false
  end.

Definition is_backoff (ev : event) : bool :=
  match ev with
  | Call _ => false
  | Sleep _ => true
  end.

(** The number of external calls and the number of sleeps in a trace. *)
Definition requests (tr : list event) : nat := length (List.filter is_request tr).

Definition backoffs (tr : list event) : nat := length (List.filter is_backoff tr).

(** The events between two traces are requests for [c0] and sleeps of
    three seconds, with at most [n] requests and no more sleeps than
    requests. *)
Definition within_budget (c0 : call) (n : nat) (before after : list event)
  : Prop :=
  exists evs,
    after = evs ++ before /\
    Forall (fun ev => ev = Call c0 \/ ev = Sleep 3) evs /\
    requests evs <= n /\
    backoffs evs <= requests evs.

(** The receiver after a successful [connect]. *)
Definition connected_receiver (before : BybitClient) (exchange : ccxt_exchange)
    (loaded : list string) : BybitClient :=
  {| client := Some exchange; markets := Some loaded;
     base_currency := base_currency before |}.



(** The exchange times out until the clock reaches [up_at] and answers
    afterwards. *)
Definition recovering_world (up_at : nat) : world :=
  let answer {A} (t : nat) (a : A) : outcome A :=
    if Nat.ltb t up_at then Fail request_timeout else Ok a in
  {| api_key_manager := fun _ _ => Ok ("key", "secret");
     load_markets := fun t _ => answer t ["BTC/USDT"];
     ccxt_create_limit_order := fun t _ _ _ _ _ => answer t placed_order;
     fetch_open_orders := fun t _ _ => answer t [];
     fetch_balance := fun t _ => answer t demo_balance;
     fetch_ticker := fun t _ _ => answer t demo_ticker;
     fetch_my_trades := fun t _ symbol => answer t (demo_history symbol);
     get_active_strategy_configs := fun _ => Ok demo_configs |}.

(** A sell fill that comes before a buy fill in a history. *)
Definition sell_before_buy (l : list trade) : Prop :=
  exists pre a mid b post,
    l = pre ++ a :: mid ++ b :: post /\ is_sell a = true /\ is_buy b = true.

(** The same in the order of the scan, newest first: a buy fill visited
    before a sell fill. *)
Definition buy_then_sell (l : list trade) : Prop :=
  exists pre a mid b post,
    l = pre ++ a :: mid ++ b :: post /\ is_buy a = true /\ is_sell b = true.

(** The index at which the loop of [get_most_recent_trade] returns its
    slice, if it does. *)
Fixpoint cut_index (prev_trade_side : option string) (i : nat)
    (rest : list trade) : option nat :=
  match rest with
  | [] => None
  | trade :: rest' =>
      if side_is prev_trade_side "buy" && side_is (side trade) "sell" then Some i
      else if side_is (side trade) "buy" then
        cut_index (Some "buy") (S i) rest'
      else if side_is (side trade) "sell" then
        cut_index (Some "sell") (S i) rest'
      else cut_index prev_trade_side (S i) rest'
  end.






(** The world of the example, but the exchange rejects the requests for
    fills. *)
Definition fills_rejected_world : world :=
  {| api_key_manager := api_key_manager demo_world;
     load_markets := load_markets demo_world;
     ccxt_create_limit_order := ccxt_create_limit_order demo_world;
     fetch_open_orders := fetch_open_orders demo_world;
     fetch_balance := fetch_balance demo_world;
     fetch_ticker := fetch_ticker demo_world;
     fetch_my_trades := fetch_my_trades rejecting_world;
     get_active_strategy_configs := get_active_strategy_configs demo_world |}.

(* ===================================================================== *)
(** ** The handlers of [app.py] *)
(* ===================================================================== *)

(** A value of a trade signal, a dict with string keys. *)
Inductive sigval :=
| SStr (s : string)
| SNum (q : Q)
| SNone.

(** [s.lower()] on the ASCII letters.  A string is its UTF-8 bytes; the
    characters outside ASCII, which [str.lower] may change, are left as
    they are: none of them becomes one of the letters of the keyword that
    the handler looks for. *)
Definition lower_ascii (a : Ascii.ascii) : Ascii.ascii :=
  let n := Ascii.nat_of_ascii a in
  if Nat.leb 65 n && Nat.leb n 90 then Ascii.ascii_of_nat (n + 32) else a.

Fixpoint py_lower (s : string) : string :=
  match s with
  | EmptyString => EmptyString
  | String a rest => String (lower_ascii a) (py_lower rest)
  end.

(** [needle in hay] on strings. *)
Fixpoint py_contains (needle hay : string) : bool :=
  String.prefix needle hay ||
  match hay with
  | EmptyString => false
  | String _ rest => py_contains needle rest
  end.

(** ["stop" in comment.lower()] *)
Definition is_stop_comment (comment : string) : bool :=
  py_contains "stop" (py_lower comment).

(** The collaborators of the handlers: [trade_processing],
    [trade_execution], [utils] and the table of the database, as oracles
    indexed by the clock, and the environment variables.  An exchange and
    a table are handles. *)
Record app_world := {
  environ : gmap string string;
  preprocess_trade_signal :
    nat -> gmap string sigval -> outcome (gmap string sigval);
  get_env_var : nat -> string -> outcome bool;
  new_Exchange : nat -> option string -> option string -> outcome nat;
  Exchange_connect : nat -> nat -> option string -> bool -> outcome bool;
  execute_long_stop : nat -> nat -> gmap string sigval -> Q -> outcome order;
  buy_side_boost :
    nat -> nat -> list (gmap string sigval) -> Q -> outcome (list order);
  new_DynamoDBManager : nat -> outcome nat;
  get_table : nat -> nat -> option string -> outcome nat;
  put_item : nat -> nat -> gmap string sigval -> outcome unit;
  get_utc_now_rounded : nat -> outcome Z;
  get_all_recent_signals :
    nat -> Z -> option string -> outcome (list (gmap string sigval))
}.

Inductive app_event :=
| PreprocessTradeSignal (trade_in : gmap string sigval)
| GetEnvVar (name : string)
| NewExchange (exchange_name base_currency : option string)
| ExchangeConnect (exchange : nat) (secret_name : option string) (sandbox : bool)
| ExecuteLongStop (exchange : nat) (trade : gmap string sigval) (increment_pct : Q)
| BuySideBoost (exchange : nat) (trades : list (gmap string sigval))
    (increment_pct : Q)
| NewDynamoDBManager
| GetTable (manager : nat) (table_name : option string)
| PutItem (table : nat) (item : gmap string sigval)
| GetUtcNowRounded
| GetAllRecentSignals (utcnow : Z) (table_name : option string).

(** How a handler ends when it does not return: with the exception of a
    collaborator, with the [AttributeError] of calling [lower] on what is
    not a string, or with the [KeyError] of a missing key. *)
Inductive app_fault :=
| FromCollaborator (e : exn)
| HasNoLower
| MissingKey (key : string).

Inductive app_result (A : Type) :=
| Done (a : A)
| Fault (f : app_fault).
Arguments Done {A} a.
Arguments Fault {A} f.

(** The trace has the newest event first. *)
Record app_state := {
  app_clock : nat;
  app_trace : list app_event
}.

Definition App (A : Type) : Type := app_state -> app_result A * app_state.

Definition app_ret {A} (a : A) : App A := fun s => (Done a, s).

Definition app_fail {A} (f : app_fault) : App A := fun s => (Fault f, s).

Definition app_bind {A B} (m : App A) (k : A -> App B) : App B :=
  fun s =>
    match m s with
    | (Done a, s') => k a s'
    | (Fault f, s') => (Fault f, s')
    end.

Notation "'do*' x ':=' m 'in' k" := (app_bind m (fun x => k))
  (at level 10, x pattern, k at level 200).

Definition app_call {A} (ev : app_event) (oracle : nat -> outcome A) : App A :=
  fun s =>
    let s' := {| app_clock := S (app_clock s);
                 app_trace := ev :: app_trace s |} in
    match oracle (app_clock s) with
    | Ok a => (Done a, s')
    | Fail e => (Fault (FromCollaborator e), s')
    end.

(** [trade[key]] *)
Definition subscript (trade : gmap string sigval) (key : string) : App sigval :=
  match trade !! key with
  | Some v => app_ret v
  | None => app_fail (MissingKey key)
  end.

Section Handlers.

Variable aw : app_world.

(** The part of both handlers that connects to the exchange; what
    [connect] returns is not looked at. *)
Definition connect_from_environment : App nat :=
  let secret_name := environ aw !! "SECRET_NAME" in
  let exchange_name := environ aw !! "EXCHANGE_NAME" in
  let base_currency := environ aw !! "BASE_CURRENCY" in
  do* sandbox := app_call (GetEnvVar "SANDBOX")
                   (fun t => get_env_var aw t "SANDBOX") in
  do* exchange := app_call (NewExchange exchange_name base_currency)
                    (fun t => new_Exchange aw t exchange_name base_currency) in
  do* _ := app_call (ExchangeConnect exchange secret_name sandbox)
             (fun t => Exchange_connect aw t exchange secret_name sandbox) in
  app_ret exchange.

Definition receive_trade_signals (trade_in : gmap string sigval) : App unit :=
  do* trade_out := app_call (PreprocessTradeSignal trade_in)
                     (fun t => preprocess_trade_signal aw t trade_in) in
  do* comment := match trade_out !! "order_comment" with
                 | Some (SStr comment) => app_ret comment
                 | _ => app_fail HasNoLower
                 end in
  if is_stop_comment comment then
    do* exchange := connect_from_environment in
    do* order := app_call (ExecuteLongStop exchange trade_out (1 # 1000))
                   (fun t => execute_long_stop aw t exchange trade_out
                               (1 # 1000)) in
    app_ret tt
  else
    let table_name := environ aw !! "TABLE_NAME" in
    do* dynamodb_manager := app_call NewDynamoDBManager
                              (fun t => new_DynamoDBManager aw t) in
    do* table := app_call (GetTable dynamodb_manager table_name)
                   (fun t => get_table aw t dynamodb_manager table_name) in
    do* _ := app_call (PutItem table trade_out)
               (fun t => put_item aw t table trade_out) in
    do* _ := subscript trade_out "ticker" in
    do* _ := subscript trade_out "create_ts" in
    app_ret tt.

Definition execute_trade_signals : App unit :=
  let table_name := environ aw !! "TABLE_NAME" in
  do* utcnow := app_call GetUtcNowRounded (fun t => get_utc_now_rounded aw t) in
  do* trades := app_call (GetAllRecentSignals utcnow table_name)
                  (fun t => get_all_recent_signals aw t utcnow table_name) in
  match trades with
  | _ :: _ =>
      do* exchange := connect_from_environment in
      do* orders := app_call (BuySideBoost exchange trades (1 # 1000))
                      (fun t => buy_side_boost aw t exchange trades (1 # 1000)) in
      app_ret tt
  | [] => app_ret tt
  end.

End Handlers.

Definition is_exchange_event (ev : app_event) : bool :=
  match ev with
  | NewExchange _ _ | ExchangeConnect _ _ _ | ExecuteLongStop _ _ _
  | BuySideBoost _ _ _ => true
  | _ => false
  end.

Definition is_database_event (ev : app_event) : bool :=
  match ev with
  | NewDynamoDBManager | GetTable _ _ | PutItem _ _ => true
  | _ => false
  end.

Definition fresh : app_state := {| app_clock := 0; app_trace := [] |}.

(** A stop signal and a signal to store, which lacks its ticker. *)
Definition stop_signal : gmap string sigval :=
  <["order_comment" := SStr "Trailing STOP hit"]>
    (<["ticker" := SStr "BTCUSDT"]> {["create_ts" := SStr "2024-01-01"]}).

Definition entry_signal : gmap string sigval :=
  <["order_comment" := SStr "long entry"]> {["create_ts" := SStr "2024-01-01"]}.

(** Every collaborator answers; [connect] answers [connected]; the
    database has the signals [recent]. *)
Definition app_demo_world (connected : bool)
    (recent : list (gmap string sigval)) : app_world :=
  {| environ := <["SECRET_NAME" := "bybit-secret"]>
                  (<["EXCHANGE_NAME" := "bybit"]>
                     (<["BASE_CURRENCY" := "USDT"]>
                        {["TABLE_NAME" := "signals"]}));
     preprocess_trade_signal := fun _ trade_in => Ok trade_in;
     get_env_var := fun _ _ => Ok false;
     new_Exchange := fun _ _ _ => Ok 7;
     Exchange_connect := fun _ _ _ _ => Ok connected;
     execute_long_stop := fun _ _ _ _ => Ok placed_order;
     buy_side_boost := fun _ _ _ _ => Ok [placed_order];
     new_DynamoDBManager := fun _ => Ok 1;
     get_table := fun _ _ _ => Ok 2;
     put_item := fun _ _ _ => Ok tt;
     get_utc_now_rounded := fun _ => Ok 1704067200%Z;
     get_all_recent_signals := fun _ _ _ => Ok recent |}.

(** Unfolding a handler down to the oracles, and the cases of their
    answers. *)
Ltac run_handler :=
  unfold receive_trade_signals, execute_trade_signals,
    connect_from_environment, app_bind, app_call, subscript, app_ret, app_fail;
  simpl.

Ltac split_oracles :=
  repeat match goal with
    | |- context [match ?o with Ok _ => _ | Fail _ => _ end] =>
        destruct o; simpl
    | |- context [match ?o with Some _ => _ | None => _ end] =>
        destruct o; simpl
    end.

(* ===================================================================== *)
(** ** TradeMatcher *)
(* ===================================================================== *)

Lemma slice_from_suffix {A} (l : list A) (start : Z) :
  slice_from l start `suffix_of` l.
Proof. unfold slice_from. apply suffix_drop. Qed.

Lemma slice_from_neg_length {A} (l : list A) (i : nat) :
  1 <= i <= length l -> length (slice_from l (- Z.of_nat i)) = i.
Proof.
  intros Hi. unfold slice_from.
  replace (- Z.of_nat i <? 0)%Z with true by (symmetry; apply Z.ltb_lt; lia).
  rewrite length_drop. lia.
Qed.

(** The loop keeps [i] equal to the number of fills already visited, and
    [prev_trade_side] is ["buy"] only after a visit. *)
Lemma scan_reversed_inv (trades : list trade) :
  forall rest prev i,
    i + length rest = length trades ->
    (side_is prev "buy" = true -> 1 <= i) ->
    trades <> [] ->
    scan_reversed trades prev i rest `suffix_of` trades /\
    scan_reversed trades prev i rest <> [].
Proof.
  induction rest as [|t rest IH]; intros prev i Hlen Hprev Hne; simpl.
  - split; [reflexivity | exact Hne].
  - simpl in Hlen.
    destruct (side_is prev "buy" && side_is (side t) "sell") eqn:Hcut.
    + apply andb_true_iff in Hcut as [Hb _]. specialize (Hprev Hb).
      split; [apply slice_from_suffix |].
      intros Hnil. apply (f_equal length) in Hnil.
      rewrite slice_from_neg_length in Hnil by lia. simpl in Hnil. lia.
    + destruct (side_is (side t) "buy") eqn:Hbuy;
        [| destruct (side_is (side t) "sell") eqn:Hsell];
        apply IH; try lia; try (intros _; lia); auto.
Qed.

Lemma most_recent_trade_of_suffix (trades : list trade) :
  most_recent_trade_of trades `suffix_of` trades.
Proof.
  destruct trades as [|t l]; [reflexivity |].
  unfold most_recent_trade_of.
  apply scan_reversed_inv; [rewrite length_rev; lia | discriminate | discriminate].
Qed.

Lemma most_recent_trade_of_nil_iff (trades : list trade) :
  most_recent_trade_of trades = [] <-> trades = [].
Proof.
  split.
  - destruct trades as [|t l]; [reflexivity |].
    unfold most_recent_trade_of. intros H. exfalso. revert H.
    apply scan_reversed_inv; [rewrite length_rev; lia | discriminate | discriminate].
  - intros ->. reflexivity.
Qed.

(** Without a sell fill the cut is never taken. *)
Lemma scan_reversed_no_sell (trades : list trade) :
  forall rest prev i,
    (forall t, t ∈ rest -> is_sell t = false) ->
    scan_reversed trades prev i rest = trades.
Proof.
  induction rest as [|t rest IH]; intros prev i Hno; simpl; [reflexivity |].
  assert (Ht : side_is (side t) "sell" = false)
    by (apply (Hno t); left).
  assert (Hrest : forall t', t' ∈ rest -> is_sell t' = false)
    by (intros t' Hin; apply Hno; right; exact Hin).
  rewrite Ht, andb_false_r.
  destruct (side_is (side t) "buy"); apply IH; exact Hrest.
Qed.

Lemma most_recent_trade_of_no_sell (trades : list trade) :
  (forall t, t ∈ trades -> is_sell t = false) ->
  most_recent_trade_of trades = trades.
Proof.
  intros Hno. destruct trades as [|t l]; [reflexivity |].
  unfold most_recent_trade_of. apply scan_reversed_no_sell.
  intros t' Hin. apply Hno.
  apply list_elem_of_In, in_rev, list_elem_of_In. exact Hin.
Qed.

(* ===================================================================== *)
(** ** TradeValuation *)
(* ===================================================================== *)

Lemma round_half_even_comp (x y : Q) :
  (x == y)%Q -> round_half_even x = round_half_even y.
Proof.
  intros H. unfold round_half_even.
  rewrite (Qfloor_comp _ _ H).
  assert (Hc : (x - inject_Z (Qfloor y) ?= 1 # 2)%Q
               = (y - inject_Z (Qfloor y) ?= 1 # 2)%Q)
    by (apply Qcompare_comp; [rewrite H|]; reflexivity).
  rewrite Hc. reflexivity.
Qed.

#[local] Instance py_round_Proper : Proper (Qeq ==> eq ==> Qeq) py_round.
Proof.
  intros x y H n ? <-. unfold py_round.
  assert (Hr : round_half_even (x * inject_Z (10 ^ Z.of_nat n))
               = round_half_even (y * inject_Z (10 ^ Z.of_nat n)))
    by (apply round_half_even_comp; rewrite H; reflexivity).
  rewrite Hr. reflexivity.
Qed.






(** [round_half_even] answers the nearest integer, the even one at a tie,
    and no other integer is that. *)
Lemma round_half_even_nearest (y : Q) :
  Binary64.nearest_ties_even y (round_half_even y).
Proof.
  unfold Binary64.nearest_ties_even, round_half_even.
  pose proof (Qfloor_le y) as Hlo.
  pose proof (Qlt_floor y) as Hhi.
  rewrite inject_Z_plus in Hhi.
  change (inject_Z 1) with 1%Q in Hhi.
  destruct (Qcompare_spec (y - inject_Z (Qfloor y)) (1 # 2)) as [Heq | Hlt | Hgt].
  - destruct (Z.even (Qfloor y)) eqn:Heven.
    + split; [lra |]. split; [lra |]. intros _. exact Heven.
    + rewrite inject_Z_plus. change (inject_Z 1) with 1%Q.
      split; [lra |]. split; [lra |]. intros _.
      rewrite Z.add_1_r, Z.even_succ, <- Z.negb_even, Heven. reflexivity.
  - split; [lra |]. split; [lra |]. intros [H | H]; lra.
  - rewrite inject_Z_plus. change (inject_Z 1) with 1%Q.
    split; [lra |]. split; [lra |]. intros [H | H]; lra.
Qed.

Lemma nearest_ties_even_unique (y : Q) (n n' : Z) :
  Binary64.nearest_ties_even y n -> Binary64.nearest_ties_even y n' -> n = n'.
Proof.
  intros (Hlo & Hhi & Htie) (Hlo' & Hhi' & Htie').
  assert (Hle : (n <= n' + 1)%Z).
  { rewrite Zle_Qle, inject_Z_plus. change (inject_Z 1) with 1%Q. lra. }
  assert (Hle' : (n' <= n + 1)%Z).
  { rewrite Zle_Qle, inject_Z_plus. change (inject_Z 1) with 1%Q. lra. }
  destruct (Z.eq_dec n n') as [Heq | Hne]; [exact Heq | exfalso].
  assert (Hcase : n = (n' + 1)%Z \/ n' = (n + 1)%Z) by lia.
  destruct Hcase as [-> | ->].
  - rewrite inject_Z_plus in Hlo, Htie. change (inject_Z 1) with 1%Q in Hlo, Htie.
    assert (H1 : Z.even (n' + 1) = true) by (apply Htie; left; lra).
    assert (H2 : Z.even n' = true) by (apply Htie'; right; lra).
    rewrite Z.add_1_r, Z.even_succ, <- Z.negb_even, H2 in H1. discriminate H1.
  - rewrite inject_Z_plus in Hlo', Htie'.
    change (inject_Z 1) with 1%Q in Hlo', Htie'.
    assert (H1 : Z.even (n + 1) = true) by (apply Htie'; left; lra).
    assert (H2 : Z.even n = true) by (apply Htie; right; lra).
    rewrite Z.add_1_r, Z.even_succ, <- Z.negb_even, H2 in H1. discriminate H1.
Qed.

(** The three accumulators of the loop on floats are the three quantities,
    each summed in the order of the list. *)
Lemma float_value_loop (trades : list Binary64.trade) :
  forall v o b,
    fold_left Binary64.value_step trades (v, o, b)
    = (fold_left Binary64.py_add
         (map (fun t => Binary64.get_or_0 (Binary64.cost t))
            (filter Binary64.is_buy trades)) v,
       fold_left Binary64.net trades o,
       fold_left Binary64.py_add
         (map (fun t => Binary64.get_or_0 (Binary64.amount t))
            (filter Binary64.is_buy trades)) b).
Proof.
  induction trades as [|t l IH]; intros v o b; [reflexivity |].
  rewrite filter_cons.
  change (fold_left Binary64.value_step (t :: l) (v, o, b))
    with (fold_left Binary64.value_step l (Binary64.value_step (v, o, b) t)).
  change (fold_left Binary64.net (t :: l) o)
    with (fold_left Binary64.net l (Binary64.net o t)).
  destruct (Binary64.value_step (v, o, b) t) as [[v1 o1] b1] eqn:Hstep.
  rewrite IH. unfold Binary64.value_step in Hstep.
  unfold Binary64.net, Binary64.is_sell.
  destruct (decide (Binary64.is_buy t)) as [Hbuy | Hbuy];
    unfold Binary64.is_buy in *;
    destruct (side_is (Binary64.side t) "buy");
    try contradiction; try (exfalso; apply Hbuy; exact I).
  - inversion Hstep; subst. reflexivity.
  - destruct (side_is (Binary64.side t) "sell"); inversion Hstep; subst;
      reflexivity.
Qed.

(** An accumulator that is an [int] is the 0 it started from, and the
    amount owned is a [float] once the amount bought is one. *)
Lemma float_value_loop_shape (trades : list Binary64.trade) :
  forall v o b v' o' b',
    match b with
    | Binary64.Int z => z = 0%Z
    | Binary64.Float _ => exists f, o = Binary64.Float f
    end ->
    fold_left Binary64.value_step trades (v, o, b) = (v', o', b') ->
    match b' with
    | Binary64.Int z => z = 0%Z
    | Binary64.Float _ => exists f, o' = Binary64.Float f
    end.
Proof.
  induction trades as [|t l IH]; intros v o b v' o' b' Hshape Hfold.
  - inversion Hfold; subst. exact Hshape.
  - change (fold_left Binary64.value_step (t :: l) (v, o, b))
      with (fold_left Binary64.value_step l (Binary64.value_step (v, o, b) t))
      in Hfold.
    destruct (Binary64.value_step (v, o, b) t) as [[v1 o1] b1] eqn:Hstep.
    apply (IH _ _ _ _ _ _) with (2 := Hfold).
    unfold Binary64.value_step in Hstep.
    destruct (side_is (Binary64.side t) "buy").
    + inversion Hstep; subst.
      destruct (Binary64.amount t) as [a|]; simpl.
      * destruct b; destruct o; simpl; eexists; reflexivity.
      * destruct b as [z|f]; simpl.
        -- subst z. destruct o; reflexivity.
        -- destruct Hshape as (fo & ->). simpl. eexists. reflexivity.
    + destruct (side_is (Binary64.side t) "sell"); inversion Hstep; subst;
        [| exact Hshape].
      destruct b1 as [z|f]; [exact Hshape |].
      destruct Hshape as (fo & ->).
      destruct (Binary64.amount t); simpl; eexists; reflexivity.
Qed.

(** Up to a hundred hundredths, the float nearest to [n / 100] is the
    quotient of the floats [n] and [100]. *)
Lemma nearest_double_hundredths (n : Z) :
  (0 <= n <= 100)%Z ->
  Binary64.nearest_double n 100 = Binary64.ratio n 100.
Proof.
  intros Hn.
  assert (Hall : Forall (fun k => Binary64.nearest_double k 100
                                  = Binary64.ratio k 100) (seqZ 0 101)).
  { let l := eval vm_compute in (seqZ 0 101) in change (seqZ 0 101) with l.
    repeat (constructor; [vm_compute; reflexivity |]). constructor. }
  apply (proj1 (Forall_forall _ _) Hall). apply elem_of_seqZ. lia.
Qed.

(** C4. On the floats of the payload, [get_trade_value_usd] never raises.
    When the total amount of the buy fills is 0 (the empty list included)
    it returns the integer 0, from the guard and not from a division: a
    division by that total raises [ZeroDivisionError].  Otherwise it
    returns [total_cost * round(amount_owned / total_bought, 2)], where
    [total_cost] and [total_bought] sum over the buy fills and
    [amount_owned] nets the amounts of the buy and sell fills, all in the
    order of the list.  [round] is the one of Python's floats: of a finite
    float it takes the integer nearest to a hundred times the (binary)
    value, the even one at a tie, and answers the float nearest to that
    many hundredths, with the sign kept (up to a hundred hundredths this is
    the quotient of the floats [n] and [100]); another float rounds to
    itself.
    The three examples yield 200, 100 and 0; 39 of 40 sold at a cost of 100
    leaves 3, since the float 1/40 is above 0.025; 0.125 and 0.375 are
    exact ties and round to 0.12 and 0.38; 2.675 rounds to 2.67 and -0.001
    to -0.0. *)
Theorem get_trade_value_usd_prorates_cost :
  (forall trades : list Binary64.trade,
     (Binary64.is_zero (Binary64.total_bought trades) = true ->
      Binary64.get_trade_value_usd trades = Returned (Binary64.Int 0)) /\
     (Binary64.is_zero (Binary64.total_bought trades) = false ->
      exists owned bought : PrimFloat.float,
        Binary64.amount_owned trades = Binary64.Float owned /\
        Binary64.total_bought trades = Binary64.Float bought /\
        Binary64.get_trade_value_usd trades
        = Returned
            (Binary64.py_mul (Binary64.total_cost trades)
               (Binary64.Float
                  (Binary64.py_round (PrimFloat.div owned bought) 2))))) /\
  (forall a b : Binary64.number,
     Binary64.is_zero b = true ->
     Binary64.py_div a b = Raised division_by_zero) /\
  (forall (x : PrimFloat.float) (s : bool) (m : positive) (e : Z),
     FloatOps.Prim2SF x = SpecFloat.S754_finite s m e ->
     exists n : Z,
       Binary64.nearest_ties_even (Binary64.magnitude m e * 100) n /\
       (forall n' : Z,
          Binary64.nearest_ties_even (Binary64.magnitude m e * 100) n' ->
          n' = n) /\
       Binary64.py_round x 2
       = if s then PrimFloat.opp (Binary64.nearest_double n 100)
         else Binary64.nearest_double n 100) /\
  (forall n : Z,
     (0 <= n <= 100)%Z ->
     Binary64.nearest_double n 100 = Binary64.ratio n 100) /\
  (forall x : PrimFloat.float,
     (forall s m e, FloatOps.Prim2SF x <> SpecFloat.S754_finite s m e) ->
     Binary64.py_round x 2 = x) /\
  Binary64.get_trade_value_usd [] = Returned (Binary64.Int 0) /\
  Binary64.get_trade_value_usd [Binary64.buy_fill 2 200]
  = Returned (Binary64.Float (Binary64.of_Z 200)) /\
  Binary64.get_trade_value_usd [Binary64.buy_fill 2 200; Binary64.sell_fill 1]
  = Returned (Binary64.Float (Binary64.of_Z 100)) /\
  Binary64.get_trade_value_usd [Binary64.buy_fill 1 100; Binary64.sell_fill 1]
  = Returned (Binary64.Float (Binary64.of_Z 0)) /\
  Binary64.get_trade_value_usd [Binary64.buy_fill 40 100; Binary64.sell_fill 39]
  = Returned (Binary64.Float (Binary64.of_Z 3)) /\
  Binary64.py_round (Binary64.ratio 1 40) 2 = Binary64.ratio 3 100 /\
  Binary64.py_round (Binary64.ratio 1 8) 2 = Binary64.ratio 12 100 /\
  Binary64.py_round (Binary64.ratio 3 8) 2 = Binary64.ratio 38 100 /\
  Binary64.py_round (Binary64.ratio 2675 1000) 2 = Binary64.ratio 267 100 /\
  Binary64.py_round (Binary64.ratio (-1) 1000) 2
  = PrimFloat.opp (Binary64.of_Z 0).
Proof.
  split; [| split; [| split; [| split; [exact nearest_double_hundredths | split]]]].
  - intros trades.
    destruct (fold_left Binary64.value_step trades
                (Binary64.Int 0, Binary64.Int 0, Binary64.Int 0))
      as [[v o] b] eqn:Hfold.
    pose proof (float_value_loop_shape trades (Binary64.Int 0) (Binary64.Int 0)
                  (Binary64.Int 0) v o b eq_refl Hfold) as Hshape.
    pose proof Hfold as Hsums. rewrite float_value_loop in Hsums.
    injection Hsums as Hv Ho Hb.
    fold (Binary64.total_cost trades) in Hv.
    fold (Binary64.amount_owned trades) in Ho.
    fold (Binary64.total_bought trades) in Hb.
    unfold Binary64.get_trade_value_usd. rewrite Hfold.
    subst v o b.
    split; intros Hzero; rewrite Hzero; [reflexivity |].
    destruct (Binary64.total_bought trades) as [z | bought].
    + subst z. discriminate Hzero.
    + destruct Hshape as (owned & ->).
      exists owned, bought. split; [reflexivity |]. split; [reflexivity |].
      unfold Binary64.py_div. rewrite Hzero. reflexivity.
  - intros a b Hzero. unfold Binary64.py_div. rewrite Hzero. reflexivity.
  - intros x s m e Hx.
    exists (round_half_even (Binary64.magnitude m e * 100)).
    split; [apply round_half_even_nearest |].
    split.
    + intros n' Hn'.
      apply (nearest_ties_even_unique _ _ _ Hn' (round_half_even_nearest _)).
    + unfold Binary64.py_round. rewrite Hx. reflexivity.
  - intros x Hx. unfold Binary64.py_round.
    destruct (FloatOps.Prim2SF x) as [| | | s m e] eqn:Hsf; try reflexivity.
    exfalso. apply (Hx s m e). reflexivity.
  - repeat split; vm_compute; reflexivity.
Qed.

(** The theorem at a cycle with a third sold, at a list without a buy, at
    a division by the integer 0, at the float 1/40, at three hundredths and
    at the infinite float. *)
Lemma get_trade_value_usd_prorates_cost_witness :
  (exists owned bought : PrimFloat.float,
     Binary64.amount_owned [Binary64.buy_fill 3 300; Binary64.sell_fill 1]
     = Binary64.Float owned /\
     Binary64.total_bought [Binary64.buy_fill 3 300; Binary64.sell_fill 1]
     = Binary64.Float bought /\
     Binary64.get_trade_value_usd
       [Binary64.buy_fill 3 300; Binary64.sell_fill 1]
     = Returned
         (Binary64.py_mul
            (Binary64.total_cost [Binary64.buy_fill 3 300; Binary64.sell_fill 1])
            (Binary64.Float
               (Binary64.py_round (PrimFloat.div owned bought) 2)))) /\
  Binary64.get_trade_value_usd [Binary64.sell_fill 1]
  = Returned (Binary64.Int 0) /\
  Binary64.py_div (Binary64.Float (Binary64.of_Z 1)) (Binary64.Int 0)
  = Raised division_by_zero /\
  (exists n : Z,
     Binary64.nearest_ties_even
       (Binary64.magnitude 7205759403792794 (-58) * 100) n /\
     Binary64.py_round (Binary64.ratio 1 40) 2 = Binary64.nearest_double n 100) /\
  Binary64.nearest_double 3 100 = Binary64.ratio 3 100 /\
  Binary64.py_round PrimFloat.infinity 2 = PrimFloat.infinity.
Proof.
  destruct get_trade_value_usd_prorates_cost
    as (Hvalue & Hdiv & Hround & Hquot & Hother & _).
  split; [| split; [| split; [apply Hdiv; reflexivity | split; [| split]]]];
    [| | | apply Hquot; lia
     | apply Hother; intros s m e H; vm_compute in H; discriminate H].
  - destruct (Hvalue [Binary64.buy_fill 3 300; Binary64.sell_fill 1])
      as [_ Hpos].
    apply Hpos. vm_compute. reflexivity.
  - destruct (Hvalue [Binary64.sell_fill 1]) as [Hzero _].
    apply Hzero. vm_compute. reflexivity.
  - destruct (Hround (Binary64.ratio 1 40) false 7205759403792794%positive
                (-58)%Z) as (n & Hn & _ & Hr).
    + vm_compute. reflexivity.
    + exists n. split; [exact Hn | exact Hr].
Defined.

(* ===================================================================== *)
(** ** The retry loop *)
(* ===================================================================== *)

Section Loop.

Context {A : Type} (attempt : M A) (on_exchange : exn -> M A) (fallthrough : A).

Lemma while_retries_returned on_network n s a s1 :
  attempt s = (Returned a, s1) ->
  while_retries attempt on_network on_exchange fallthrough (S n) s
  = (Returned a, s1).
Proof. intros H. simpl. rewrite H. reflexivity. Qed.

Lemma while_retries_exchange on_network n s e s1 :
  attempt s = (Raised e, s1) ->
  except_clause e = HExchange ->
  while_retries attempt on_network on_exchange fallthrough (S n) s
  = on_exchange e s1.
Proof. intros H He. simpl. rewrite H, He. reflexivity. Qed.

Lemma while_retries_unexpected on_network n s e s1 :
  attempt s = (Raised e, s1) ->
  except_clause e = HException ->
  while_retries attempt on_network on_exchange fallthrough (S n) s
  = (Raised e, s1).
Proof. intros H He. simpl. rewrite H, He. reflexivity. Qed.

Lemma while_retries_network n s e s1 :
  attempt s = (Raised e, s1) ->
  except_clause e = HNetwork ->
  while_retries attempt sleep_and_retry on_exchange fallthrough (S n) s
  = while_retries attempt sleep_and_retry on_exchange fallthrough n
      (record (Sleep 3) s1).
Proof. intros H He. simpl. rewrite H, He. reflexivity. Qed.

Lemma failed_attempts_shift (n : nat) (calls tr : list event) :
  failed_attempts n calls ++ Sleep 3 :: calls ++ tr
  = failed_attempts (S n) calls ++ tr.
Proof.
  unfold failed_attempts. induction n as [|n IH]; simpl.
  - rewrite app_nil_r. reflexivity.
  - simpl in IH. rewrite <- !app_assoc. simpl. rewrite <- !app_assoc.
    rewrite IH. rewrite <- !app_assoc. reflexivity.
Qed.

(** When every attempt of a receiver [me] fails with a network error after
    the calls [calls], [n] attempts are made, each followed by a sleep,
    and the loop is left through its end. *)
Lemma while_retries_exhausted (me : BybitClient) (calls : list event) :
  (forall s, self s = me ->
     exists e s1, attempt s = (Raised e, s1) /\ except_clause e = HNetwork /\
                  self s1 = me /\ trace s1 = calls ++ trace s) ->
  forall n s, self s = me ->
    exists s',
      while_retries attempt sleep_and_retry on_exchange fallthrough n s
      = (Returned fallthrough, s') /\
      self s' = me /\
      trace s' = failed_attempts n calls ++ trace s.
Proof.
  intros Hfail. induction n as [|n IH]; intros s Hme.
  - exists s. repeat split; assumption || reflexivity.
  - destruct (Hfail s Hme) as (e & s1 & Hrun & He & Hme1 & Htr).
    rewrite (while_retries_network _ _ _ _ Hrun He).
    destruct (IH (record (Sleep 3) s1)) as (s' & Hloop & Hme' & Htr');
      [exact Hme1 |].
    exists s'. repeat split; [exact Hloop | exact Hme' |].
    rewrite Htr'. simpl. rewrite Htr. apply failed_attempts_shift.
Qed.

End Loop.

(** The network handler of [create_limit_order] is the usual one (see
    [py_eq]), so the method is the plain retry loop. *)
Lemma create_limit_order_unfold (w : world) (symbol side : string)
    (amount order_price : Q) (max_retries : Z) :
  create_limit_order w symbol side amount order_price max_retries
  = while_retries (create_limit_order_attempt w symbol side amount order_price)
      sleep_and_retry (fun _ => ret None) None (Z.to_nat max_retries).
Proof. reflexivity. Qed.

(** The attempts under a failing request: the exception of the request is
    raised after that one call. *)
Lemma create_limit_order_attempt_fail w s c symbol side amount order_price e :
  client (self s) = Some c ->
  ccxt_create_limit_order w (clock s) c symbol side amount order_price = Fail e ->
  create_limit_order_attempt w symbol side amount order_price s
  = (Raised e, tick (record (Call (CreateLimitOrder symbol side amount order_price)) s)).
Proof. intros Hc Hf. run_attempt. rewrite Hc. simpl. rewrite Hf. reflexivity. Qed.

Lemma get_total_currency_attempt_fail w s c currency e :
  client (self s) = Some c ->
  fetch_balance w (clock s) c = Fail e ->
  get_total_currency_attempt w currency s
  = (Raised e, tick (record (Call FetchBalance) s)).
Proof. intros Hc Hf. run_attempt. rewrite Hc. simpl. rewrite Hf. reflexivity. Qed.

(** With a client the log lines of [get_total_currency] read its [id] and
    the method is the plain retry loop. *)
Lemma get_total_currency_with_client w c currency max_retries :
  forall s,
    client (self s) = Some c ->
    get_total_currency w currency max_retries s
    = while_retries (get_total_currency_attempt w currency)
        sleep_and_retry (fun _ => ret None) None (Z.to_nat max_retries) s.
Proof.
  unfold get_total_currency. generalize (Z.to_nat max_retries) as n.
  induction n as [|n IH]; intros s Hc; simpl; [reflexivity |].
  destruct (fetch_balance w (clock s) c) as [balance|e] eqn:Hf.
  - assert (Hrun : exists r, get_total_currency_attempt w currency s
                             = (Returned r, tick (record (Call FetchBalance) s))).
    { run_attempt. rewrite Hc. simpl. rewrite Hf.
      destruct (balance !! currency); eexists; reflexivity. }
    destruct Hrun as (r & ->). reflexivity.
  - rewrite (get_total_currency_attempt_fail _ _ _ currency _ Hc Hf).
    destruct (except_clause e); unfold bind, client_attr; simpl;
      rewrite Hc; simpl; try reflexivity.
    apply IH. exact Hc.
Qed.

(** Without a client the attempt raises [AttributeError], and so does the
    log line of the handler that catches it, on [self.client.id]: this
    second error is the one that leaves the method. *)
Lemma get_total_currency_without_client w currency max_retries s :
  client (self s) = None ->
  (0 < max_retries)%Z ->
  get_total_currency w currency max_retries s
  = (Raised (none_has_no_attribute "id"), s).
Proof.
  intros Hnone Hpos. unfold get_total_currency.
  destruct (Z.to_nat max_retries) as [|n] eqn:Hn; [lia |].
  assert (Hrun : get_total_currency_attempt w currency s
                 = (Raised (none_has_no_attribute "fetch_balance"), s)).
  { run_attempt. rewrite Hnone. reflexivity. }
  simpl. rewrite Hrun. simpl. unfold bind, client_attr. rewrite Hnone.
  reflexivity.
Qed.

Lemma get_bid_ask_attempt_fail w s c symbol e :
  client (self s) = Some c ->
  fetch_ticker w (clock s) c symbol = Fail e ->
  get_bid_ask_attempt w (PStr symbol) s
  = (Raised e, tick (record (Call (FetchTicker symbol)) s)).
Proof. intros Hc Hf. run_attempt. rewrite Hc. simpl. rewrite Hf. reflexivity. Qed.

Lemma get_last_price_attempt_fail w s c symbol e :
  client (self s) = Some c ->
  fetch_ticker w (clock s) c symbol = Fail e ->
  get_last_price_attempt w (PStr symbol) s
  = (Raised e, tick (record (Call (FetchTicker symbol)) s)).
Proof. intros Hc Hf. run_attempt. rewrite Hc. simpl. rewrite Hf. reflexivity. Qed.

Lemma get_most_recent_trade_attempt_fail w s c symbol e :
  client (self s) = Some c ->
  fetch_my_trades w (clock s) c symbol = Fail e ->
  get_most_recent_trade_attempt w symbol s
  = (Raised e, tick (record (Call (FetchMyTrades symbol)) s)).
Proof. intros Hc Hf. run_attempt. rewrite Hc. simpl. rewrite Hf. reflexivity. Qed.

Lemma get_account_allocation_attempt_fail w s c e :
  client (self s) = Some c ->
  fetch_balance w (clock s) c = Fail e ->
  get_account_allocation_attempt w s
  = (Raised e, tick (record (Call FetchBalance) s)).
Proof. intros Hc Hf. run_attempt. rewrite Hc. simpl. rewrite Hf. reflexivity. Qed.

Lemma connect_attempt_fail w s secret_name sandbox api_key api_secret e :
  api_key_manager w (clock s) secret_name = Ok (api_key, api_secret) ->
  load_markets w (S (clock s)) (new_exchange api_key api_secret sandbox) = Fail e ->
  connect_attempt w secret_name sandbox s
  = (Raised e,
     tick (record (Call LoadMarkets)
             (tick (record (Call (ApiKeyManager secret_name)) s)))).
Proof. intros Hk Hf. run_attempt. rewrite Hk. simpl. rewrite Hf. reflexivity. Qed.

(* ===================================================================== *)
(** ** RetryPolicy: exhaustion and rejection *)
(* ===================================================================== *)

(** C6. With [max_retries = 3] and a network error at every request, each
    retry-wrapped operation makes exactly three attempts, each followed by
    a sleep of three seconds, and then returns its failure value ([False],
    [None] or [(None, None)]) without raising.  [connect] does so on every
    receiver, with or without a client, and leaves it as it was; the other
    operations are run on a receiver with a client. *)
Theorem network_errors_exhaust_three_attempts (w : world) (s : state) :
  network_down w ->
  credentials_available w ->
  (forall secret_name sandbox,
     exists s', connect w secret_name sandbox 3 s = (Returned false, s') /\
       self s' = self s /\
       trace s' = failed_attempts 3
                    [Call LoadMarkets; Call (ApiKeyManager secret_name)]
                  ++ trace s) /\
  (forall c,
     client (self s) = Some c ->
     (forall symbol side amount order_price,
        exists s',
          create_limit_order w symbol side amount order_price 3 s
          = (Returned None, s') /\
          trace s' = failed_attempts 3
                       [Call (CreateLimitOrder symbol side amount order_price)]
                     ++ trace s) /\
     (forall currency,
        exists s', get_total_currency w currency 3 s = (Returned None, s') /\
          trace s' = failed_attempts 3 [Call FetchBalance] ++ trace s) /\
     (forall symbol,
        exists s',
          get_bid_ask w (PStr symbol) 3 s = (Returned (None, None), s') /\
          trace s' = failed_attempts 3 [Call (FetchTicker symbol)] ++ trace s) /\
     (forall symbol,
        exists s', get_last_price w (PStr symbol) 3 s = (Returned None, s') /\
          trace s' = failed_attempts 3 [Call (FetchTicker symbol)] ++ trace s) /\
     (exists s', get_account_allocation w 3 s = (Returned None, s') /\
        trace s' = failed_attempts 3 [Call FetchBalance] ++ trace s) /\
     (forall symbol,
        exists s', get_most_recent_trade w symbol 3 s = (Returned None, s') /\
          trace s' = failed_attempts 3 [Call (FetchMyTrades symbol)]
                     ++ trace s)).
Proof.
  intros Hdown Hcred.
  assert (Hloop : forall {A} (attempt : M A) on_exchange fallthrough calls,
    (forall s0, self s0 = self s ->
       exists e s1, attempt s0 = (Raised e, s1) /\ except_clause e = HNetwork /\
                    self s1 = self s /\ trace s1 = calls ++ trace s0) ->
    exists s',
      while_retries attempt sleep_and_retry on_exchange fallthrough 3 s
      = (Returned fallthrough, s') /\
      self s' = self s /\
      trace s' = failed_attempts 3 calls ++ trace s).
  { intros A attempt on_exchange fallthrough calls Hfail.
    apply (while_retries_exhausted attempt on_exchange fallthrough
             (self s) calls Hfail 3 s eq_refl). }
  assert (Hloop' : forall {A} (attempt : M A) on_exchange fallthrough calls,
    (forall s0, self s0 = self s ->
       exists e s1, attempt s0 = (Raised e, s1) /\ except_clause e = HNetwork /\
                    self s1 = self s /\ trace s1 = calls ++ trace s0) ->
    exists s',
      while_retries attempt sleep_and_retry on_exchange fallthrough 3 s
      = (Returned fallthrough, s') /\
      trace s' = failed_attempts 3 calls ++ trace s).
  { intros A attempt on_exchange fallthrough calls Hfail.
    destruct (Hloop A attempt on_exchange fallthrough calls Hfail)
      as (s' & Hrun & _ & Htr).
    exists s'. split; assumption. }
  split.
  - intros secret_name sandbox. apply Hloop. intros s0 Hs0.
    destruct (Hcred (clock s0) secret_name) as ([api_key api_secret] & Hk).
    destruct (Hdown (S (clock s0)) (new_exchange api_key api_secret sandbox))
      as ((e & He & Hnet) & _).
    exists e. eexists. split; [apply (connect_attempt_fail _ _ _ _ _ _ _ Hk He) |].
    repeat split; [exact Hnet | exact Hs0].
  - intros c Hclient.
    assert (Hcl : forall s0, self s0 = self s -> client (self s0) = Some c)
      by (intros s0 ->; exact Hclient).
    split; [| split; [| split; [| split; [| split]]]].
    + intros symbol side amount order_price. rewrite create_limit_order_unfold.
      apply Hloop'. intros s0 Hs0.
      destruct (Hdown (clock s0) c) as (_ & Hf & _).
      destruct (Hf symbol side amount order_price) as (e & He & Hnet).
      exists e. eexists.
      split; [apply (create_limit_order_attempt_fail _ _ _ _ _ _ _ _ (Hcl _ Hs0) He) |].
      repeat split; [exact Hnet | exact Hs0].
    + intros currency.
      rewrite (get_total_currency_with_client w c currency 3 s Hclient).
      apply Hloop'. intros s0 Hs0.
      destruct (Hdown (clock s0) c) as (_ & _ & (e & He & Hnet) & _).
      exists e. eexists.
      split; [apply (get_total_currency_attempt_fail _ _ _ _ _ (Hcl _ Hs0) He) |].
      repeat split; [exact Hnet | exact Hs0].
    + intros symbol. apply Hloop'. intros s0 Hs0.
      destruct (Hdown (clock s0) c) as (_ & _ & _ & Hf & _).
      destruct (Hf symbol) as (e & He & Hnet).
      exists e. eexists.
      split; [apply (get_bid_ask_attempt_fail _ _ _ _ _ (Hcl _ Hs0) He) |].
      repeat split; [exact Hnet | exact Hs0].
    + intros symbol. apply Hloop'. intros s0 Hs0.
      destruct (Hdown (clock s0) c) as (_ & _ & _ & Hf & _).
      destruct (Hf symbol) as (e & He & Hnet).
      exists e. eexists.
      split; [apply (get_last_price_attempt_fail _ _ _ _ _ (Hcl _ Hs0) He) |].
      repeat split; [exact Hnet | exact Hs0].
    + apply Hloop'. intros s0 Hs0.
      destruct (Hdown (clock s0) c) as (_ & _ & (e & He & Hnet) & _).
      exists e. eexists.
      split; [apply (get_account_allocation_attempt_fail _ _ _ _ (Hcl _ Hs0) He) |].
      repeat split; [exact Hnet | exact Hs0].
    + intros symbol. apply Hloop'. intros s0 Hs0.
      destruct (Hdown (clock s0) c) as (_ & _ & _ & _ & Hf).
      destruct (Hf symbol) as (e & He & Hnet).
      exists e. eexists.
      split; [apply (get_most_recent_trade_attempt_fail _ _ _ _ _ (Hcl _ Hs0) He) |].
      repeat split; [exact Hnet | exact Hs0].
Qed.

Lemma timeout_world_is_down : network_down timeout_world.
Proof.
  intros t c. repeat split; intros; exists request_timeout; split; reflexivity.
Qed.

(** The theorem in the world where every request times out: [connect] on
    the receiver that [__init__] leaves, without a client, and an order on
    a receiver with a client. *)
Lemma network_errors_exhaust_three_attempts_witness :
  network_down timeout_world /\
  credentials_available timeout_world /\
  client (self unconnected) = None /\
  (exists s', connect timeout_world "bybit-secret" false 3 unconnected
              = (Returned false, s') /\
     self s' = self unconnected /\
     trace s' = failed_attempts 3
                  [Call LoadMarkets; Call (ApiKeyManager "bybit-secret")]
                ++ trace unconnected) /\
  client (self connected) = Some demo_exchange /\
  (exists s',
     create_limit_order timeout_world "BTC/USDT" "buy" (1 # 100) (501 # 5) 3
       connected = (Returned None, s') /\
     trace s' = failed_attempts 3
                  [Call (CreateLimitOrder "BTC/USDT" "buy" (1 # 100) (501 # 5))]
                ++ trace connected).
Proof.
  assert (Hcred : credentials_available timeout_world)
    by (intros t n; exists ("key", "secret"); reflexivity).
  split; [exact timeout_world_is_down |].
  split; [exact Hcred |].
  split; [reflexivity |].
  split.
  - destruct (network_errors_exhaust_three_attempts timeout_world unconnected
                timeout_world_is_down Hcred) as (Hconnect & _).
    apply Hconnect.
  - split; [reflexivity |].
    destruct (network_errors_exhaust_three_attempts timeout_world connected
                timeout_world_is_down Hcred) as (_ & Hothers).
    destruct (Hothers demo_exchange eq_refl) as (Hcreate & _).
    apply Hcreate.
Defined.

(** C1, on the code.  The comparison of the caught instance with the class
    [ccxt.RequestTimeout] is false for every exception, so the network
    handler of [create_limit_order] never asks for the open orders.  Where
    the order request times out at every attempt although an open order
    for the symbol exists, [create_limit_order] makes its three requests,
    sleeping after each, and returns [None]. *)
Theorem create_limit_order_timeout_never_reconciles :
  (forall (w : world) (symbol : string) (e : exn),
     py_eq (ExnObj e) (ClassObj RequestTimeout) = false /\
     create_limit_order_on_network w symbol e = sleep_and_retry e) /\
  isinstance request_timeout RequestTimeout = true /\
  fetch_open_orders timeout_world 1 demo_exchange "BTC/USDT" = Ok [placed_order] /\
  create_limit_order timeout_world "BTC/USDT" "buy" (1 # 100) (501 # 5) 3
    connected
  = (Returned None,
     {| self := self connected; clock := 3;
        trace := [Sleep 3;
                  Call (CreateLimitOrder "BTC/USDT" "buy" (1 # 100) (501 # 5));
                  Sleep 3;
                  Call (CreateLimitOrder "BTC/USDT" "buy" (1 # 100) (501 # 5));
                  Sleep 3;
                  Call (CreateLimitOrder "BTC/USDT" "buy" (1 # 100) (501 # 5))]
     |}).
Proof. repeat split. Qed.




(* ===================================================================== *)
(** ** TradeMatcher, as [get_most_recent_trade] runs it *)
(* ===================================================================== *)

Lemma get_most_recent_trade_first_answer w s c symbol max_retries trades :
  client (self s) = Some c ->
  (0 < max_retries)%Z ->
  fetch_my_trades w (clock s) c symbol = Ok trades ->
  get_most_recent_trade w symbol max_retries s
  = (Returned (Some (most_recent_trade_of trades)),
     tick (record (Call (FetchMyTrades symbol)) s)).
Proof.
  intros Hc Hpos Hf. unfold get_most_recent_trade.
  destruct (Z.to_nat max_retries) as [|n] eqn:Hn; [lia |].
  apply while_retries_returned.
  run_attempt. rewrite Hc. simpl. rewrite Hf. reflexivity.
Qed.

(** C3. The matched cycle is a suffix of the fill history, the newest fills,
    and it is empty exactly when the history is empty; it is what
    [get_most_recent_trade] returns for the history that the exchange
    answers. *)
Theorem matched_cycle_is_suffix_of_history (trades : list trade) :
  most_recent_trade_of trades `suffix_of` trades /\
  (most_recent_trade_of trades = [] <-> trades = []) /\
  (forall w s c symbol max_retries,
     client (self s) = Some c ->
     (0 < max_retries)%Z ->
     fetch_my_trades w (clock s) c symbol = Ok trades ->
     fst (get_most_recent_trade w symbol max_retries s)
     = Returned (Some (most_recent_trade_of trades))).
Proof.
  split; [apply most_recent_trade_of_suffix |].
  split; [apply most_recent_trade_of_nil_iff |].
  intros w s c symbol max_retries Hc Hpos Hf.
  rewrite (get_most_recent_trade_first_answer _ _ _ _ _ _ Hc Hpos Hf).
  reflexivity.
Qed.

(** The theorem at a history with a closed cycle and two later buys: the
    matched cycle is the two buys. *)
Lemma matched_cycle_is_suffix_of_history_witness :
  fst (get_most_recent_trade demo_world "BTC/USDT" 3 connected)
  = Returned (Some [buy_fill 3 1 90; buy_fill 4 1 110]) /\
  [buy_fill 3 1 90; buy_fill 4 1 110] `suffix_of` demo_history "BTC/USDT".
Proof.
  destruct (matched_cycle_is_suffix_of_history (demo_history "BTC/USDT"))
    as (Hsuffix & _ & Hrun).
  split.
  - apply (Hrun demo_world connected demo_exchange "BTC/USDT" 3%Z);
      reflexivity.
  - exact Hsuffix.
Defined.

(** C7. A fill history without a sell fill is returned whole. *)
Theorem history_without_sell_is_returned_whole (trades : list trade) :
  trades <> [] ->
  (forall t, t ∈ trades -> side_is (side t) "sell" = false) ->
  most_recent_trade_of trades = trades /\
  (forall w s c symbol max_retries,
     client (self s) = Some c ->
     (0 < max_retries)%Z ->
     fetch_my_trades w (clock s) c symbol = Ok trades ->
     fst (get_most_recent_trade w symbol max_retries s)
     = Returned (Some trades)).
Proof.
  intros _ Hno.
  assert (Hwhole : most_recent_trade_of trades = trades)
    by (apply most_recent_trade_of_no_sell; exact Hno).
  split; [exact Hwhole |].
  intros w s c symbol max_retries Hc Hpos Hf.
  rewrite (get_most_recent_trade_first_answer _ _ _ _ _ _ Hc Hpos Hf).
  simpl. rewrite Hwhole. reflexivity.
Qed.

(** The theorem at a history of two buys. *)
Lemma history_without_sell_is_returned_whole_witness :
  most_recent_trade_of [buy_fill 1 1 100; buy_fill 2 2 210]
  = [buy_fill 1 1 100; buy_fill 2 2 210].
Proof.
  apply (history_without_sell_is_returned_whole
           [buy_fill 1 1 100; buy_fill 2 2 210]).
  - discriminate.
  - intros t Ht.
    apply list_elem_of_In in Ht.
    destruct Ht as [<- | [<- | []]]; reflexivity.
Defined.

(* ===================================================================== *)
(** ** BalanceQuery *)
(* ===================================================================== *)

Lemma get_total_currency_attempt_ok w s c currency balance :
  client (self s) = Some c ->
  fetch_balance w (clock s) c = Ok balance ->
  get_total_currency_attempt w currency s
  = (Returned (total_in balance currency), tick (record (Call FetchBalance) s)).
Proof.
  intros Hc Hf. run_attempt. rewrite Hc. simpl. rewrite Hf.
  unfold total_in. destruct (balance !! currency); reflexivity.
Qed.

(** The balance is answered at the attempt [k], after [k] network errors. *)
Lemma get_total_currency_after_failures w c currency balance :
  forall k n s,
    client (self s) = Some c ->
    k < n ->
    (forall j, j < k -> raises_network (fetch_balance w (clock s + j) c)) ->
    fetch_balance w (clock s + k) c = Ok balance ->
    fst (while_retries (get_total_currency_attempt w currency)
           sleep_and_retry (fun _ => ret None) None n s)
    = Returned (total_in balance currency).
Proof.
  induction k as [|k IH]; intros n s Hc Hlt Hfail Hok;
    (destruct n as [|n]; [lia |]).
  - rewrite Nat.add_0_r in Hok.
    rewrite (while_retries_returned _ _ _ _ _ _ _ _
               (get_total_currency_attempt_ok _ _ _ currency _ Hc Hok)).
    reflexivity.
  - destruct (Hfail 0) as (e & He & Hnet); [lia |].
    rewrite Nat.add_0_r in He.
    rewrite (while_retries_network _ _ _ _ _ _ _
               (get_total_currency_attempt_fail _ _ _ currency _ Hc He) Hnet).
    apply IH; simpl.
    + exact Hc.
    + lia.
    + intros j Hj. specialize (Hfail (S j)).
      rewrite Nat.add_succ_r in Hfail. apply Hfail. lia.
    + rewrite Nat.add_succ_r in Hok. exact Hok.
Qed.

(** C8. When the balance payload that the exchange answers, at the first
    attempt or after network errors, does not have the currency,
    [get_total_currency] returns [None]: it neither raises nor returns a
    number. *)
Theorem get_total_currency_absent_currency_is_none
    (w : world) (s : state) (c : ccxt_exchange) (currency : string)
    (max_retries : Z) (k : nat) (balance : gmap string (gmap string Q)) :
  client (self s) = Some c ->
  (Z.of_nat k < max_retries)%Z ->
  (forall j, j < k -> raises_network (fetch_balance w (clock s + j) c)) ->
  fetch_balance w (clock s + k) c = Ok balance ->
  balance !! currency = None ->
  fst (get_total_currency w currency max_retries s) = Returned None.
Proof.
  intros Hc Hk Hfail Hok Habsent.
  rewrite (get_total_currency_with_client w c currency _ s Hc).
  rewrite (get_total_currency_after_failures w c currency balance k
             (Z.to_nat max_retries) s Hc ltac:(lia) Hfail Hok).
  unfold total_in. rewrite Habsent. reflexivity.
Qed.

(** The theorem where the first balance request times out and the second
    is answered with a payload that has no BTC. *)
Lemma get_total_currency_absent_currency_is_none_witness :
  fst (get_total_currency flaky_world "BTC" 3 connected) = Returned None.
Proof.
  apply (get_total_currency_absent_currency_is_none flaky_world connected
           demo_exchange "BTC" 3 1 demo_balance).
  - reflexivity.
  - reflexivity.
  - intros j Hj. assert (j = 0) as -> by lia.
    exists request_timeout. split; reflexivity.
  - reflexivity.
  - vm_compute. reflexivity.
Defined.

(* ===================================================================== *)
(** ** MarketDataQuery *)
(* ===================================================================== *)

Lemma grows_trace_bind {A B} (m : M A) (k : A -> M B) :
  grows_trace m -> (forall a, grows_trace (k a)) -> grows_trace (bind m k).
Proof.
  intros Hm Hk s. unfold bind. destruct (Hm s) as (evs & Hevs).
  destruct (m s) as [[a|e] s1]; simpl in *.
  - destruct (Hk a s1) as (evs' & Hevs'). exists (evs' ++ evs).
    rewrite Hevs', Hevs, app_assoc. reflexivity.
  - exists evs. exact Hevs.
Qed.

Lemma grows_trace_external {A} (c : call) (oracle : nat -> outcome A) :
  grows_trace (external c oracle).
Proof.
  intros s. exists [Call c]. unfold external.
  destruct (oracle (clock s)); reflexivity.
Qed.

Lemma grows_trace_pure {A} (r : state -> result A) :
  grows_trace (fun s => (r s, s)).
Proof. intros s. exists []. reflexivity. Qed.

Lemma grows_trace_while_retries {A} (attempt : M A) on_network on_exchange
    (fallthrough : A) :
  grows_trace attempt ->
  (forall e, grows_trace (on_network e)) ->
  (forall e, grows_trace (on_exchange e)) ->
  forall n, grows_trace (while_retries attempt on_network on_exchange fallthrough n).
Proof.
  intros Ha Hn Hx. induction n as [|n IH]; intros s; simpl.
  - exists []. reflexivity.
  - destruct (Ha s) as (evs & Hevs).
    destruct (attempt s) as [[a|e] s1]; simpl in *; [exists evs; exact Hevs |].
    destruct (except_clause e).
    + destruct (Hn e s1) as (evs1 & Hevs1).
      destruct (on_network e s1) as [[[a|]|e'] s2]; simpl in *.
      * exists (evs1 ++ evs). rewrite Hevs1, Hevs, app_assoc. reflexivity.
      * destruct (IH s2) as (evs2 & Hevs2). exists (evs2 ++ evs1 ++ evs).
        rewrite Hevs2, Hevs1, Hevs, !app_assoc. reflexivity.
      * exists (evs1 ++ evs). rewrite Hevs1, Hevs, app_assoc. reflexivity.
    + destruct (Hx e s1) as (evs1 & Hevs1). exists (evs1 ++ evs).
      rewrite Hevs1, Hevs, app_assoc. reflexivity.
    + exists evs. exact Hevs.
Qed.

Lemma grows_trace_sleep_and_retry {A} (e : exn) :
  grows_trace (@sleep_and_retry A e).
Proof. intros s. exists [Sleep 3]. reflexivity. Qed.

Lemma grows_trace_get_bid_ask_attempt w symbol :
  grows_trace (get_bid_ask_attempt w symbol).
Proof.
  intros s. run_attempt.
  destruct (client (self s)) as [c|]; [| exists []; reflexivity].
  destruct symbol as [sym| |z]; simpl; try (exists []; reflexivity).
  exists [Call (FetchTicker sym)].
  destruct (fetch_ticker w (clock s) c sym); reflexivity.
Qed.

(** C9 as stated fails: the empty string is not rejected.  It passes the
    validation, the ticker request for it goes to the exchange and the
    answer of the exchange is returned. *)
Lemma get_bid_ask_sends_empty_symbol :
  ~ (forall (w : world) (s : state) (max_retries : Z),
        (0 < max_retries)%Z ->
        exists e, get_bid_ask w (PStr "") max_retries s = (Raised e, s) /\
                  exn_class e = ValueError).
Proof.
  intros H. destruct (H demo_world connected 3%Z eq_refl) as (e & Hrun & _).
  assert (Hsent : get_bid_ask demo_world (PStr "") 3 connected
                  = (Returned (Some 100%Q, Some (201 # 2)),
                     tick (record (Call (FetchTicker "")) connected)))
    by reflexivity.
  rewrite Hsent in Hrun. discriminate Hrun.
Qed.

(** C9, amended.  In every attempt [get_bid_ask] checks, before any request,
    that the receiver has a client and that the symbol is a string: without
    a client, or with a symbol that is not a string, it raises [ValueError]
    and no request is made.  A string passes whatever its content, the
    empty string included: the first request is the ticker request for
    it. *)
Theorem get_bid_ask_validates_client_and_type
    (w : world) (s : state) (symbol : pyarg) (max_retries : Z) :
  (0 < max_retries)%Z ->
  (client (self s) = None ->
   get_bid_ask w symbol max_retries s
   = (Raised (value_error "exchange must be a valid ccxt.Exchange object"), s)) /\
  (forall c,
     client (self s) = Some c ->
     (forall sym, symbol <> PStr sym) ->
     get_bid_ask w symbol max_retries s
     = (Raised (value_error "symbol must be a string"), s)) /\
  (forall c sym,
     client (self s) = Some c ->
     symbol = PStr sym ->
     exists later,
       trace (snd (get_bid_ask w symbol max_retries s))
       = later ++ Call (FetchTicker sym) :: trace s).
Proof.
  intros Hpos. unfold get_bid_ask.
  destruct (Z.to_nat max_retries) as [|n] eqn:Hn; [lia |].
  repeat split.
  - intros Hnone. apply while_retries_unexpected; [| reflexivity].
    run_attempt. rewrite Hnone. reflexivity.
  - intros c Hc Hnot. apply while_retries_unexpected; [| reflexivity].
    run_attempt. rewrite Hc.
    destruct symbol as [sym| |z]; [destruct (Hnot sym eq_refl) | |]; reflexivity.
  - intros c sym Hc ->.
    pose proof (grows_trace_while_retries (get_bid_ask_attempt w (PStr sym))
                  sleep_and_retry (fun _ => ret (None, None)) (None, None)
                  (grows_trace_get_bid_ask_attempt w (PStr sym))
                  grows_trace_sleep_and_retry
                  (fun _ => grows_trace_pure _) n) as Hrest.
    simpl while_retries.
    destruct (fetch_ticker w (clock s) c sym) as [tk|e] eqn:Hf.
    + assert (Hrun : get_bid_ask_attempt w (PStr sym) s
                     = (Returned (bid tk, ask tk),
                        tick (record (Call (FetchTicker sym)) s)))
        by (run_attempt; rewrite Hc; simpl; rewrite Hf; reflexivity).
      rewrite Hrun. exists []. reflexivity.
    + rewrite (get_bid_ask_attempt_fail _ _ _ _ _ Hc Hf).
      destruct (except_clause e); try (exists []; reflexivity).
      simpl.
      destruct (Hrest (record (Sleep 3) (tick (record (Call (FetchTicker sym)) s))))
        as (evs & Hevs).
      exists (evs ++ [Sleep 3]). rewrite Hevs, <- app_assoc. reflexivity.
Qed.

(** The theorem at a receiver without a client, and at the empty symbol. *)
Lemma get_bid_ask_validates_client_and_type_witness :
  get_bid_ask demo_world (PStr "BTC/USDT") 3 unconnected
  = (Raised (value_error "exchange must be a valid ccxt.Exchange object"),
     unconnected) /\
  get_bid_ask demo_world PNone 3 connected
  = (Raised (value_error "symbol must be a string"), connected) /\
  exists later,
    trace (snd (get_bid_ask demo_world (PStr "") 3 connected))
    = later ++ Call (FetchTicker "") :: trace connected.
Proof.
  split; [| split].
  - apply (get_bid_ask_validates_client_and_type demo_world unconnected
             (PStr "BTC/USDT") 3); reflexivity.
  - apply (get_bid_ask_validates_client_and_type demo_world connected
             PNone 3 eq_refl) with (c := demo_exchange);
      [reflexivity | discriminate].
  - apply (get_bid_ask_validates_client_and_type demo_world connected
             (PStr "") 3 eq_refl) with (c := demo_exchange); reflexivity.
Defined.

(* ===================================================================== *)
(** ** [get_total_usd] *)
(* ===================================================================== *)

(** C10 as stated fails: on a receiver that never connected, the fault of
    [get_total_usd] is the [AttributeError] of [get_account_allocation],
    not an unbound local. *)
Lemma get_total_usd_unconnected_raises_attribute_error :
  ~ (forall (w : world) (s : state),
        exists e s', get_total_usd w s = (Raised e, s') /\
                     exn_class e = UnboundLocalError).
Proof.
  intros H. destruct (H demo_world unconnected) as (e & s' & Hrun & Hclass).
  assert (Hattr : get_total_usd demo_world unconnected
                  = (Raised (none_has_no_attribute "fetch_balance"), unconnected))
    by reflexivity.
  rewrite Hattr in Hrun. inversion Hrun; subst e. discriminate Hclass.
Qed.

(** C10, amended.  [get_total_usd] never returns.  When its call of
    [get_account_allocation] returns, a mapping or [None], it raises
    [UnboundLocalError] for its local [sum]; when that call raises, the
    fault goes on to the caller. *)
Theorem get_total_usd_never_returns (w : world) (s : state) :
  (forall v s', get_total_usd w s <> (Returned v, s')) /\
  match get_account_allocation w 3 s with
  | (Returned _, s') => get_total_usd w s = (Raised (unbound_local "sum"), s')
  | (Raised e, s') => get_total_usd w s = (Raised e, s')
  end.
Proof.
  unfold get_total_usd, bind.
  destruct (get_account_allocation w 3 s) as [[allocation|e] s1]; simpl;
    (split; [intros v s'; discriminate | reflexivity]).
Qed.

(* ===================================================================== *)
(** ** AllocationCalculator *)
(* ===================================================================== *)

Lemma keeps_self_bind {A B} (m : M A) (k : A -> M B) :
  keeps_self m -> (forall a, keeps_self (k a)) -> keeps_self (bind m k).
Proof.
  intros Hm Hk s. unfold bind. specialize (Hm s).
  destruct (m s) as [[a|e] s1]; simpl in *; [| exact Hm].
  rewrite (Hk a s1). exact Hm.
Qed.

Lemma keeps_self_external {A} (c : call) (oracle : nat -> outcome A) :
  keeps_self (external c oracle).
Proof. intros s. unfold external. destruct (oracle (clock s)); reflexivity. Qed.

Lemma keeps_self_client_attr (attr : string) : keeps_self (client_attr attr).
Proof. intros s. unfold client_attr. destruct (client (self s)); reflexivity. Qed.

Lemma keeps_self_lift {A} (r : result A) : keeps_self (lift r).
Proof. intros s. reflexivity. Qed.

Lemma keeps_self_ret {A} (a : A) : keeps_self (ret a).
Proof. intros s. reflexivity. Qed.

Lemma keeps_self_raise {A} (e : exn) : keeps_self (@raise A e).
Proof. intros s. reflexivity. Qed.

Lemma keeps_self_sleep_and_retry {A} (e : exn) :
  keeps_self (@sleep_and_retry A e).
Proof. intros s. reflexivity. Qed.

Lemma keeps_self_while_retries {A} (attempt : M A) on_network on_exchange
    (fallthrough : A) :
  keeps_self attempt ->
  (forall e, keeps_self (on_network e)) ->
  (forall e, keeps_self (on_exchange e)) ->
  forall n, keeps_self (while_retries attempt on_network on_exchange fallthrough n).
Proof.
  intros Ha Hn Hx. induction n as [|n IH]; intros s; simpl; [reflexivity |].
  specialize (Ha s).
  destruct (attempt s) as [[a|e] s1]; simpl in *; [exact Ha |].
  destruct (except_clause e).
  - specialize (Hn e s1).
    destruct (on_network e s1) as [[[a|]|e'] s2]; simpl in *;
      [congruence | rewrite (IH s2); congruence | congruence].
  - rewrite (Hx e s1). exact Ha.
  - exact Ha.
Qed.

Lemma keeps_self_get_most_recent_trade w symbol max_retries :
  keeps_self (get_most_recent_trade w symbol max_retries).
Proof.
  apply keeps_self_while_retries.
  - apply keeps_self_bind; [apply keeps_self_client_attr |].
    intros c. apply keeps_self_bind; [apply keeps_self_external |].
    intros trades. apply keeps_self_ret.
  - apply @keeps_self_sleep_and_retry.
  - apply @keeps_self_raise.
Qed.

Lemma keeps_self_allocate w :
  forall configs d0, keeps_self (allocate w configs d0).
Proof.
  induction configs as [|cf rest IH]; intros d0; simpl.
  - apply keeps_self_ret.
  - apply keeps_self_bind; [apply keeps_self_get_most_recent_trade |].
    intros [[|fill fills]|]; try apply IH.
    apply keeps_self_bind; [apply keeps_self_lift |]. intros v. apply IH.
Qed.

Lemma keeps_self_get_account_allocation_attempt w :
  keeps_self (get_account_allocation_attempt w).
Proof.
  unfold get_account_allocation_attempt.
  apply keeps_self_bind; [apply keeps_self_client_attr |]. intros c.
  apply keeps_self_bind; [apply keeps_self_external |]. intros balance.
  apply keeps_self_bind;
    [intros s; destruct (balance !! "free"); reflexivity |]. intros free.
  apply keeps_self_bind; [intros s; reflexivity |]. intros base.
  apply keeps_self_bind; [apply keeps_self_external |]. intros configs.
  apply keeps_self_bind; [apply keeps_self_allocate |]. intros d.
  apply keeps_self_ret.
Qed.











(* ===================================================================== *)
(** ** The retry loop, further *)
(* ===================================================================== *)

Section LoopRuns.

Context {A : Type} (attempt : M A) (on_exchange : exn -> M A) (fallthrough : A).

(** After [k] attempts that fail with a network error, the loop is at its
    attempt number [k], [k] sleeps later, and what this attempt returns is
    what the loop returns.  Every attempt takes [d] ticks of the clock. *)
Lemma while_retries_after_failures (me : BybitClient) (calls : list event)
    (d : nat) :
  forall (k t0 n : nat) (s : state),
    (forall j s0, j < k -> self s0 = me -> clock s0 = t0 + d * j ->
       exists e s1, attempt s0 = (Raised e, s1) /\ except_clause e = HNetwork /\
                    self s1 = me /\ clock s1 = d + clock s0 /\
                    trace s1 = calls ++ trace s0) ->
    k < n -> self s = me -> clock s = t0 ->
    exists s0,
      self s0 = me /\ clock s0 = t0 + d * k /\
      trace s0 = failed_attempts k calls ++ trace s /\
      while_retries attempt sleep_and_retry on_exchange fallthrough n s
      = while_retries attempt sleep_and_retry on_exchange fallthrough (n - k) s0.
Proof.
  induction k as [|k IH]; intros t0 n s Hfail Hlt Hme Hclock.
  - exists s. rewrite Nat.mul_0_r, Nat.add_0_r, Nat.sub_0_r.
    repeat split; assumption || reflexivity.
  - destruct n as [|n]; [lia |].
    destruct (Hfail 0 s) as (e & s1 & Hrun & He & Hme1 & Hclock1 & Htr);
      [lia | exact Hme | lia |].
    rewrite (while_retries_network _ _ _ _ _ _ _ Hrun He).
    destruct (IH (d + t0) n (record (Sleep 3) s1)) as (s0 & Hme0 & Hc0 & Htr0 & Hloop).
    + intros j s0 Hj Hme0 Hc0.
      apply (Hfail (S j)); [lia | exact Hme0 |].
      rewrite Nat.mul_succ_r. lia.
    + lia.
    + exact Hme1.
    + simpl. lia.
    + exists s0. split; [exact Hme0 |].
      split; [rewrite Nat.mul_succ_r; lia |].
      split; [| exact Hloop].
      rewrite Htr0. simpl. rewrite Htr. apply failed_attempts_shift.
Qed.

(** The events that a run of the loop adds when every attempt either
    raises an unexpected error without a request or makes the one request
    [c0]: requests for [c0] and sleeps of three seconds only, no more
    requests than [n], and no more sleeps than requests. *)
Lemma while_retries_budget (c0 : call) :
  (forall s,
      (exists e, attempt s = (Raised e, s) /\ except_clause e = HException) \/
      (exists r, attempt s = (r, tick (record (Call c0) s)))) ->
  (forall e s, snd (on_exchange e s) = s) ->
  forall n s,
    exists evs,
      trace (snd (while_retries attempt sleep_and_retry on_exchange
                    fallthrough n s)) = evs ++ trace s /\
      Forall (fun ev => ev = Call c0 \/ ev = Sleep 3) evs /\
      requests evs <= n /\
      backoffs evs <= requests evs.
Proof.
  intros Hshape Hex.
  assert (Hone : Forall (fun ev => ev = Call c0 \/ ev = Sleep 3) [Call c0])
    by (repeat constructor; auto).
  induction n as [|n IH]; intros s.
  - exists []. simpl. repeat split; auto.
  - simpl. destruct (Hshape s) as [(e & Hrun & He) | (r & Hrun)]; rewrite Hrun.
    + rewrite He. exists []. unfold requests, backoffs. simpl.
      repeat split; auto; lia.
    + destruct r as [a|e].
      * exists [Call c0]. unfold requests, backoffs. simpl.
        repeat split; auto; lia.
      * destruct (except_clause e).
        -- simpl.
           destruct (IH (record (Sleep 3) (tick (record (Call c0) s))))
             as (evs & Htr & Hall & Hreq & Hback).
           exists (evs ++ [Sleep 3; Call c0]).
           split; [rewrite Htr; simpl; rewrite <- app_assoc; reflexivity |].
           split;
             [apply Forall_app; split;
                [exact Hall | constructor; [right; reflexivity | exact Hone]] |].
           unfold requests, backoffs in *.
           rewrite !List.filter_app, !length_app. simpl. lia.
        -- rewrite Hex. exists [Call c0]. unfold requests, backoffs. simpl.
           repeat split; auto; lia.
        -- exists [Call c0]. unfold requests, backoffs. simpl.
           repeat split; auto; lia.
Qed.

End LoopRuns.

(* ===================================================================== *)
(** ** The operations under the retry loop *)
(* ===================================================================== *)

Lemma create_limit_order_attempt_shape w symbol side amount order_price s :
  (exists e, create_limit_order_attempt w symbol side amount order_price s
             = (Raised e, s) /\ except_clause e = HException) \/
  (exists r, create_limit_order_attempt w symbol side amount order_price s
             = (r, tick (record (Call (CreateLimitOrder symbol side amount
                                         order_price)) s))).
Proof.
  run_attempt. destruct (client (self s)) as [c|]; simpl.
  - right.
    destruct (ccxt_create_limit_order w (clock s) c symbol side amount order_price);
      eexists; reflexivity.
  - left. eexists. split; reflexivity.
Qed.

Lemma get_total_currency_attempt_shape w currency s :
  (exists e, get_total_currency_attempt w currency s = (Raised e, s) /\
             except_clause e = HException) \/
  (exists r, get_total_currency_attempt w currency s
             = (r, tick (record (Call FetchBalance) s))).
Proof.
  run_attempt. destruct (client (self s)) as [c|]; simpl.
  - right. destruct (fetch_balance w (clock s) c) as [balance|e];
      [destruct (balance !! currency) |]; eexists; reflexivity.
  - left. eexists. split; reflexivity.
Qed.

Lemma get_bid_ask_attempt_shape w symbol s :
  (exists e, get_bid_ask_attempt w (PStr symbol) s = (Raised e, s) /\
             except_clause e = HException) \/
  (exists r, get_bid_ask_attempt w (PStr symbol) s
             = (r, tick (record (Call (FetchTicker symbol)) s))).
Proof.
  run_attempt. destruct (client (self s)) as [c|]; simpl.
  - right. destruct (fetch_ticker w (clock s) c symbol); eexists; reflexivity.
  - left. eexists. split; reflexivity.
Qed.

Lemma get_last_price_attempt_shape w symbol s :
  (exists e, get_last_price_attempt w (PStr symbol) s = (Raised e, s) /\
             except_clause e = HException) \/
  (exists r, get_last_price_attempt w (PStr symbol) s
             = (r, tick (record (Call (FetchTicker symbol)) s))).
Proof.
  run_attempt. destruct (client (self s)) as [c|]; simpl.
  - right. destruct (fetch_ticker w (clock s) c symbol); eexists; reflexivity.
  - left. eexists. split; reflexivity.
Qed.

Lemma get_most_recent_trade_attempt_shape w symbol s :
  (exists e, get_most_recent_trade_attempt w symbol s = (Raised e, s) /\
             except_clause e = HException) \/
  (exists r, get_most_recent_trade_attempt w symbol s
             = (r, tick (record (Call (FetchMyTrades symbol)) s))).
Proof.
  run_attempt. destruct (client (self s)) as [c|]; simpl.
  - right. destruct (fetch_my_trades w (clock s) c symbol); eexists; reflexivity.
  - left. eexists. split; reflexivity.
Qed.

(** X5. Whatever the exchange answers, an operation with one request per
    attempt sends that request at most [max_retries] times, sends no other
    request, and sleeps (three seconds, never another time) at most once
    per request sent. *)
Theorem requests_stay_within_retry_budget
    (w : world) (s : state) (max_retries : Z) :
  (forall symbol side amount order_price,
     within_budget (CreateLimitOrder symbol side amount order_price)
       (Z.to_nat max_retries) (trace s)
       (trace (snd (create_limit_order w symbol side amount order_price
                      max_retries s)))) /\
  (forall currency,
     within_budget FetchBalance (Z.to_nat max_retries) (trace s)
       (trace (snd (get_total_currency w currency max_retries s)))) /\
  (forall symbol,
     within_budget (FetchTicker symbol) (Z.to_nat max_retries) (trace s)
       (trace (snd (get_bid_ask w (PStr symbol) max_retries s)))) /\
  (forall symbol,
     within_budget (FetchTicker symbol) (Z.to_nat max_retries) (trace s)
       (trace (snd (get_last_price w (PStr symbol) max_retries s)))) /\
  (forall symbol,
     within_budget (FetchMyTrades symbol) (Z.to_nat max_retries) (trace s)
       (trace (snd (get_most_recent_trade w symbol max_retries s)))).
Proof.
  unfold within_budget. repeat split.
  - intros symbol side amount order_price. rewrite create_limit_order_unfold.
    apply while_retries_budget; [| reflexivity].
    apply create_limit_order_attempt_shape.
  - intros currency. destruct (client (self s)) as [c|] eqn:Hc.
    + rewrite (get_total_currency_with_client w c currency _ s Hc).
      apply while_retries_budget; [| reflexivity].
      apply get_total_currency_attempt_shape.
    + exists []. destruct (Z.to_nat max_retries) as [|n] eqn:Hn.
      * unfold get_total_currency. rewrite Hn.
        unfold requests, backoffs. simpl. repeat split; auto.
      * assert (Hpos : (0 < max_retries)%Z) by lia.
        rewrite (get_total_currency_without_client w currency _ s Hc Hpos).
        unfold requests, backoffs. simpl. repeat split; auto; lia.
  - intros symbol. apply while_retries_budget; [| reflexivity].
    apply get_bid_ask_attempt_shape.
  - intros symbol. apply while_retries_budget; [| reflexivity].
    apply get_last_price_attempt_shape.
  - intros symbol. apply while_retries_budget; [| reflexivity].
    apply get_most_recent_trade_attempt_shape.
Qed.

(** X1. On a receiver without a client (as [__init__] leaves it) and with
    a positive [max_retries], every operation but [connect] raises at once,
    without a request, a sleep or a retry: [AttributeError] from the
    operations that go straight to [self.client] (for the request method,
    and for [id] from [get_total_currency], whose handler reads
    [self.client.id] for its log line), [ValueError] from the validation of
    [get_last_price]. *)
Theorem operations_need_a_connection
    (w : world) (s : state) (max_retries : Z) :
  client (self s) = None ->
  (0 < max_retries)%Z ->
  (forall symbol side amount order_price,
     create_limit_order w symbol side amount order_price max_retries s
     = (Raised (none_has_no_attribute "create_limit_order"), s)) /\
  (forall currency,
     get_total_currency w currency max_retries s
     = (Raised (none_has_no_attribute "id"), s)) /\
  (forall symbol,
     get_last_price w symbol max_retries s
     = (Raised (value_error "exchange must be a valid ccxt.Exchange object"), s)) /\
  get_account_allocation w max_retries s
  = (Raised (none_has_no_attribute "fetch_balance"), s) /\
  (forall symbol,
     get_most_recent_trade w symbol max_retries s
     = (Raised (none_has_no_attribute "fetch_my_trades"), s)) /\
  get_total_usd w s = (Raised (none_has_no_attribute "fetch_balance"), s).
Proof.
  intros Hnone Hpos.
  destruct (Z.to_nat max_retries) as [|n] eqn:Hn; [lia |].
  assert (Halloc : forall m, get_account_allocation w (Z.pos m) s
            = (Raised (none_has_no_attribute "fetch_balance"), s)).
  { intros m. unfold get_account_allocation.
    destruct (Z.to_nat (Z.pos m)) as [|k] eqn:Hk; [lia |].
    apply while_retries_unexpected; [| reflexivity].
    run_attempt. rewrite Hnone. reflexivity. }
  repeat split.
  - intros symbol side amount order_price. rewrite create_limit_order_unfold, Hn.
    apply while_retries_unexpected; [| reflexivity].
    run_attempt. rewrite Hnone. reflexivity.
  - intros currency.
    apply (get_total_currency_without_client w currency _ s Hnone Hpos).
  - intros symbol. unfold get_last_price. rewrite Hn.
    apply while_retries_unexpected; [| reflexivity].
    run_attempt. rewrite Hnone. reflexivity.
  - destruct max_retries as [|m|m]; try lia. apply Halloc.
  - intros symbol. unfold get_most_recent_trade. rewrite Hn.
    apply while_retries_unexpected; [| reflexivity].
    run_attempt. rewrite Hnone. reflexivity.
  - unfold get_total_usd, bind. rewrite (Halloc 3%positive). reflexivity.
Qed.

(** The theorem on the receiver that [__init__] builds. *)
Lemma operations_need_a_connection_witness :
  BybitClient_init "USDT" = Returned (self unconnected) /\
  get_total_currency demo_world "USDT" 3 unconnected
  = (Raised (none_has_no_attribute "id"), unconnected) /\
  get_last_price demo_world (PStr "BTC/USDT") 3 unconnected
  = (Raised (value_error "exchange must be a valid ccxt.Exchange object"),
     unconnected).
Proof.
  destruct (operations_need_a_connection demo_world unconnected 3
              eq_refl eq_refl) as (_ & Htotal & Hlast & _).
  split; [reflexivity |]. split; [apply Htotal | apply Hlast].
Defined.

(** X2. With [max_retries <= 0] no operation makes an attempt: each returns
    its failure value at once, with no request and no validation, whatever
    the receiver and the arguments. *)
Theorem no_attempt_without_retries
    (w : world) (s : state) (max_retries : Z) :
  (max_retries <= 0)%Z ->
  (forall secret_name sandbox,
     connect w secret_name sandbox max_retries s = (Returned false, s)) /\
  (forall symbol side amount order_price,
     create_limit_order w symbol side amount order_price max_retries s
     = (Returned None, s)) /\
  (forall currency,
     get_total_currency w currency max_retries s = (Returned None, s)) /\
  (forall symbol,
     get_bid_ask w symbol max_retries s = (Returned (None, None), s)) /\
  (forall symbol,
     get_last_price w symbol max_retries s = (Returned None, s)) /\
  get_account_allocation w max_retries s = (Returned None, s) /\
  (forall symbol,
     get_most_recent_trade w symbol max_retries s = (Returned None, s)).
Proof.
  intros Hle.
  unfold connect, create_limit_order, get_total_currency, get_bid_ask,
    get_last_price, get_account_allocation, get_most_recent_trade.
  replace (Z.to_nat max_retries) with 0 by lia.
  repeat split.
Qed.

(** The theorem at [max_retries = 0], on a receiver without a client and
    with a symbol that is not a string. *)
Lemma no_attempt_without_retries_witness :
  get_bid_ask rejecting_world PNone 0 unconnected
  = (Returned (None, None), unconnected) /\
  connect rejecting_world "bybit-secret" false (-1) unconnected
  = (Returned false, unconnected).
Proof.
  split.
  - apply (no_attempt_without_retries rejecting_world unconnected 0); lia.
  - apply (no_attempt_without_retries rejecting_world unconnected (-1)); lia.
Defined.

Lemma connect_attempt_no_credentials w s secret_name sandbox e :
  api_key_manager w (clock s) secret_name = Fail e ->
  connect_attempt w secret_name sandbox s
  = (Raised e, tick (record (Call (ApiKeyManager secret_name)) s)).
Proof. intros Hk. run_attempt. rewrite Hk. reflexivity. Qed.



(** X4. When the request fails with a network error [k] times and is then
    answered, with [k < max_retries], the operation returns what the answer
    gives: it has sent the request [k + 1] times and slept [k] times.  For
    [create_limit_order] this means [k + 1] order requests for one order
    returned. *)
Theorem operation_recovers_after_network_errors
    (w : world) (s : state) (c : ccxt_exchange) (max_retries : Z) (k : nat) :
  client (self s) = Some c ->
  (Z.of_nat k < max_retries)%Z ->
  (forall symbol side amount order_price placed,
     (forall j, j < k ->
        raises_network (ccxt_create_limit_order w (clock s + j) c symbol side
                          amount order_price)) ->
     ccxt_create_limit_order w (clock s + k) c symbol side amount order_price
     = Ok placed ->
     exists s',
       create_limit_order w symbol side amount order_price max_retries s
       = (Returned (Some placed), s') /\
       trace s'
       = Call (CreateLimitOrder symbol side amount order_price)
         :: failed_attempts k
              [Call (CreateLimitOrder symbol side amount order_price)]
         ++ trace s) /\
  (forall symbol answer,
     (forall j, j < k -> raises_network (fetch_ticker w (clock s + j) c symbol)) ->
     fetch_ticker w (clock s + k) c symbol = Ok answer ->
     (exists s',
        get_bid_ask w (PStr symbol) max_retries s
        = (Returned (bid answer, ask answer), s') /\
        trace s' = Call (FetchTicker symbol)
                   :: failed_attempts k [Call (FetchTicker symbol)] ++ trace s) /\
     (exists s',
        get_last_price w (PStr symbol) max_retries s
        = (Returned (last answer), s') /\
        trace s' = Call (FetchTicker symbol)
                   :: failed_attempts k [Call (FetchTicker symbol)] ++ trace s)) /\
  (forall symbol trades,
     (forall j, j < k -> raises_network (fetch_my_trades w (clock s + j) c symbol)) ->
     fetch_my_trades w (clock s + k) c symbol = Ok trades ->
     exists s',
       get_most_recent_trade w symbol max_retries s
       = (Returned (Some (most_recent_trade_of trades)), s') /\
       trace s' = Call (FetchMyTrades symbol)
                  :: failed_attempts k [Call (FetchMyTrades symbol)] ++ trace s).
Proof.
  intros Hclient Hk.
  assert (Hrun : forall {A} (attempt : M A) on_exchange fallthrough c0 a,
    (forall j s0, j < k -> self s0 = self s -> clock s0 = clock s + 1 * j ->
       exists e s1, attempt s0 = (Raised e, s1) /\ except_clause e = HNetwork /\
                    self s1 = self s /\ clock s1 = 1 + clock s0 /\
                    trace s1 = [Call c0] ++ trace s0) ->
    (forall s0, self s0 = self s -> clock s0 = clock s + k ->
       attempt s0 = (Returned a, tick (record (Call c0) s0))) ->
    exists s',
      while_retries attempt sleep_and_retry on_exchange fallthrough
        (Z.to_nat max_retries) s = (Returned a, s') /\
      trace s' = Call c0 :: failed_attempts k [Call c0] ++ trace s).
  { intros A attempt on_exchange fallthrough c0 a Hfail Hok.
    destruct (while_retries_after_failures attempt on_exchange fallthrough
                (self s) [Call c0] 1 k (clock s) (Z.to_nat max_retries) s
                Hfail ltac:(lia) eq_refl eq_refl)
      as (s0 & Hme0 & Hc0 & Htr0 & Hloop).
    rewrite Hloop.
    destruct (Z.to_nat max_retries - k) as [|m] eqn:Hm; [lia |].
    eexists. split.
    - apply while_retries_returned. apply Hok; [exact Hme0 | lia].
    - simpl. rewrite Htr0. reflexivity. }
  assert (Hcl : forall s0, self s0 = self s -> client (self s0) = Some c)
    by (intros s0 ->; exact Hclient).
  split; [| split].
  - intros symbol side amount order_price placed Hfail Hok.
    rewrite create_limit_order_unfold. apply Hrun.
    + intros j s0 Hj Hme Hclock. destruct (Hfail j Hj) as (e & He & Hnet).
      rewrite Nat.mul_1_l in Hclock. rewrite <- Hclock in He.
      exists e. eexists.
      split; [apply (create_limit_order_attempt_fail _ _ _ _ _ _ _ _ (Hcl _ Hme) He) |].
      repeat split; [exact Hnet | exact Hme].
    + intros s0 Hme Hclock. rewrite <- Hclock in Hok.
      run_attempt. rewrite (Hcl _ Hme). simpl. rewrite Hok. reflexivity.
  - intros symbol answer Hfail Hok. split; apply Hrun.
    + intros j s0 Hj Hme Hclock. destruct (Hfail j Hj) as (e & He & Hnet).
      rewrite Nat.mul_1_l in Hclock. rewrite <- Hclock in He.
      exists e. eexists.
      split; [apply (get_bid_ask_attempt_fail _ _ _ _ _ (Hcl _ Hme) He) |].
      repeat split; [exact Hnet | exact Hme].
    + intros s0 Hme Hclock. rewrite <- Hclock in Hok.
      run_attempt. rewrite (Hcl _ Hme). simpl. rewrite Hok. reflexivity.
    + intros j s0 Hj Hme Hclock. destruct (Hfail j Hj) as (e & He & Hnet).
      rewrite Nat.mul_1_l in Hclock. rewrite <- Hclock in He.
      exists e. eexists.
      split; [apply (get_last_price_attempt_fail _ _ _ _ _ (Hcl _ Hme) He) |].
      repeat split; [exact Hnet | exact Hme].
    + intros s0 Hme Hclock. rewrite <- Hclock in Hok.
      run_attempt. rewrite (Hcl _ Hme). simpl. rewrite Hok. reflexivity.
  - intros symbol trades Hfail Hok. apply Hrun.
    + intros j s0 Hj Hme Hclock. destruct (Hfail j Hj) as (e & He & Hnet).
      rewrite Nat.mul_1_l in Hclock. rewrite <- Hclock in He.
      exists e. eexists.
      split; [apply (get_most_recent_trade_attempt_fail _ _ _ _ _ (Hcl _ Hme) He) |].
      repeat split; [exact Hnet | exact Hme].
    + intros s0 Hme Hclock. rewrite <- Hclock in Hok.
      run_attempt. rewrite (Hcl _ Hme). simpl. rewrite Hok. reflexivity.
Qed.

(** The theorem where the exchange times out once: two order requests and
    one sleep for the order returned. *)
Lemma operation_recovers_after_network_errors_witness :
  exists s',
    create_limit_order (recovering_world 1) "BTC/USDT" "buy" (1 # 100) (501 # 5)
      3 connected = (Returned (Some placed_order), s') /\
    trace s'
    = [Call (CreateLimitOrder "BTC/USDT" "buy" (1 # 100) (501 # 5));
       Sleep 3;
       Call (CreateLimitOrder "BTC/USDT" "buy" (1 # 100) (501 # 5))].
Proof.
  destruct (operation_recovers_after_network_errors (recovering_world 1)
              connected demo_exchange 3 1 eq_refl eq_refl) as (Hcreate & _).
  apply (Hcreate "BTC/USDT" "buy" (1 # 100)%Q (501 # 5)%Q placed_order).
  - intros j Hj. assert (j = 0) as -> by lia.
    exists request_timeout. split; reflexivity.
  - reflexivity.
Defined.

(* ===================================================================== *)
(** ** The receiver *)
(* ===================================================================== *)

Lemma keeps_self_validate_inputs symbol : keeps_self (validate_inputs symbol).
Proof.
  intros s. unfold validate_inputs.
  destruct (client (self s)); [destruct symbol |]; reflexivity.
Qed.

Lemma keeps_self_sleep (seconds : Z) : keeps_self (sleep seconds).
Proof. intros s. reflexivity. Qed.

(** X6. No operation but [connect] writes to the receiver: whatever the
    exchange answers and however the run ends, the client, the markets and
    the base currency are the same after as before. *)
Theorem queries_keep_the_receiver (w : world) :
  (forall symbol side amount order_price max_retries,
     keeps_self (create_limit_order w symbol side amount order_price
                   max_retries)) /\
  (forall currency max_retries,
     keeps_self (get_total_currency w currency max_retries)) /\
  (forall symbol max_retries, keeps_self (get_bid_ask w symbol max_retries)) /\
  (forall symbol max_retries, keeps_self (get_last_price w symbol max_retries)) /\
  (forall max_retries, keeps_self (get_account_allocation w max_retries)) /\
  (forall symbol max_retries,
     keeps_self (get_most_recent_trade w symbol max_retries)) /\
  keeps_self (get_total_usd w).
Proof.
  assert (Halloc : forall max_retries,
            keeps_self (get_account_allocation w max_retries)).
  { intros max_retries. apply keeps_self_while_retries.
    - apply keeps_self_get_account_allocation_attempt.
    - apply @keeps_self_sleep_and_retry.
    - intros e. apply keeps_self_ret. }
  split; [| split; [| split; [| split; [| split; [| split]]]]].
  - intros symbol side amount order_price max_retries.
    rewrite create_limit_order_unfold. apply keeps_self_while_retries.
    + apply keeps_self_bind; [apply keeps_self_client_attr |]. intros c.
      apply keeps_self_bind; [apply keeps_self_external |]. intros o.
      apply keeps_self_ret.
    + apply @keeps_self_sleep_and_retry.
    + intros e. apply keeps_self_ret.
  - intros currency max_retries s.
    destruct (client (self s)) as [c|] eqn:Hc.
    + rewrite (get_total_currency_with_client w c currency _ s Hc).
      apply keeps_self_while_retries.
      * apply keeps_self_bind; [apply keeps_self_client_attr |]. intros c'.
        apply keeps_self_bind; [apply keeps_self_external |]. intros balance.
        destruct (balance !! currency); apply keeps_self_ret.
      * apply @keeps_self_sleep_and_retry.
      * intros e. apply keeps_self_ret.
    + destruct (Z.to_nat max_retries) as [|n] eqn:Hn.
      * unfold get_total_currency. rewrite Hn. reflexivity.
      * assert (Hpos : (0 < max_retries)%Z) by lia.
        rewrite (get_total_currency_without_client w currency _ s Hc Hpos).
        reflexivity.
  - intros symbol max_retries. apply keeps_self_while_retries.
    + apply keeps_self_bind; [apply keeps_self_validate_inputs |]. intros [c sym].
      apply keeps_self_bind; [apply keeps_self_external |]. intros tk.
      apply keeps_self_ret.
    + apply @keeps_self_sleep_and_retry.
    + intros e. apply keeps_self_ret.
  - intros symbol max_retries. apply keeps_self_while_retries.
    + apply keeps_self_bind; [apply keeps_self_validate_inputs |]. intros [c sym].
      apply keeps_self_bind; [apply keeps_self_external |]. intros tk.
      apply keeps_self_ret.
    + apply @keeps_self_sleep_and_retry.
    + intros e. apply keeps_self_ret.
  - exact Halloc.
  - intros symbol max_retries. apply keeps_self_get_most_recent_trade.
  - unfold get_total_usd. apply keeps_self_bind; [apply Halloc |].
    intros d. apply keeps_self_bind; [apply keeps_self_raise |].
    intros v. apply keeps_self_raise.
Qed.

(** X7. [connect] writes to the receiver only when it returns [True]: then
    the client is the exchange built, with a timeout of 6000 ms and the
    sandbox mode asked for, from the credentials of the attempt whose
    [load_markets] was answered, the markets are that answer, and the base
    currency is kept.  When [connect] returns [False] or raises, the
    receiver is as before. *)
Theorem connect_writes_the_receiver_on_success_only
    (w : world) (secret_name : string) (sandbox : bool) (max_retries : Z)
    (s : state) :
  match connect w secret_name sandbox max_retries s with
  | (Returned true, s') =>
      exists t api_key api_secret loaded,
        api_key_manager w t secret_name = Ok (api_key, api_secret) /\
        load_markets w (S t) (new_exchange api_key api_secret sandbox)
        = Ok loaded /\
        self s' = connected_receiver (self s)
                    (new_exchange api_key api_secret sandbox) loaded /\
        timeout (new_exchange api_key api_secret sandbox) = 6000%Z /\
        sandbox_mode (new_exchange api_key api_secret sandbox) = sandbox
  | (_, s') => self s' = self s
  end.
Proof.
  unfold connect. generalize (Z.to_nat max_retries) as n. intros n.
  assert (Hgen : forall me s0, self s0 = me ->
    match while_retries (connect_attempt w secret_name sandbox)
            sleep_and_retry (fun _ => ret false) false n s0 with
    | (Returned true, s') =>
        exists t api_key api_secret loaded,
          api_key_manager w t secret_name = Ok (api_key, api_secret) /\
          load_markets w (S t) (new_exchange api_key api_secret sandbox)
          = Ok loaded /\
          self s' = connected_receiver me
                      (new_exchange api_key api_secret sandbox) loaded /\
          timeout (new_exchange api_key api_secret sandbox) = 6000%Z /\
          sandbox_mode (new_exchange api_key api_secret sandbox) = sandbox
    | (_, s') => self s' = me
    end); [| apply Hgen; reflexivity].
  intros me. induction n as [|n IH]; intros s0 Hme; simpl; [exact Hme |].
  destruct (api_key_manager w (clock s0) secret_name) as [[api_key api_secret]|e]
    eqn:Hk.
  - destruct (load_markets w (S (clock s0))
                (new_exchange api_key api_secret sandbox)) as [loaded|e] eqn:Hl.
    + assert (Hrun : connect_attempt w secret_name sandbox s0
                = (Returned true,
                   {| self := connected_receiver (self s0)
                                (new_exchange api_key api_secret sandbox) loaded;
                      clock := S (S (clock s0));
                      trace := Call LoadMarkets
                               :: Call (ApiKeyManager secret_name) :: trace s0 |}))
        by (run_attempt; rewrite Hk; simpl; rewrite Hl; reflexivity).
      rewrite Hrun. exists (clock s0), api_key, api_secret, loaded.
      simpl. rewrite Hme.
      split; [exact Hk |]. split; [exact Hl |]. split; [reflexivity |].
      split; destruct sandbox; reflexivity.
    + rewrite (connect_attempt_fail _ _ _ _ _ _ _ Hk Hl).
      destruct (except_clause e); simpl; try exact Hme.
      apply IH. exact Hme.
  - rewrite (connect_attempt_no_credentials _ _ _ sandbox _ Hk).
    destruct (except_clause e); simpl; try exact Hme.
    apply IH. exact Hme.
Qed.

Lemma connect_attempt_ok w s secret_name sandbox api_key api_secret loaded :
  api_key_manager w (clock s) secret_name = Ok (api_key, api_secret) ->
  load_markets w (S (clock s)) (new_exchange api_key api_secret sandbox)
  = Ok loaded ->
  connect_attempt w secret_name sandbox s
  = (Returned true,
     {| self := connected_receiver (self s)
                  (new_exchange api_key api_secret sandbox) loaded;
        clock := S (S (clock s));
        trace := Call LoadMarkets :: Call (ApiKeyManager secret_name)
                 :: trace s |}).
Proof. intros Hk Hl. run_attempt. rewrite Hk. simpl. rewrite Hl. reflexivity. Qed.

(** X8. [connect] returns [True] as soon as [load_markets] is answered,
    after [k < max_retries] network errors: it has then asked for the
    credentials and for the markets [k + 1] times each and slept [k]
    times, and the receiver holds the exchange and the markets. *)
Theorem connect_succeeds_after_network_errors
    (w : world) (s : state) (secret_name : string) (sandbox : bool)
    (max_retries : Z) (k : nat) (api_key api_secret : string)
    (loaded : list string) :
  (Z.of_nat k < max_retries)%Z ->
  (forall j, j <= k ->
     api_key_manager w (clock s + 2 * j) secret_name = Ok (api_key, api_secret)) ->
  (forall j, j < k ->
     raises_network (load_markets w (S (clock s + 2 * j))
                       (new_exchange api_key api_secret sandbox))) ->
  load_markets w (S (clock s + 2 * k)) (new_exchange api_key api_secret sandbox)
  = Ok loaded ->
  exists s',
    connect w secret_name sandbox max_retries s = (Returned true, s') /\
    self s' = connected_receiver (self s)
                (new_exchange api_key api_secret sandbox) loaded /\
    trace s'
    = [Call LoadMarkets; Call (ApiKeyManager secret_name)]
      ++ failed_attempts k [Call LoadMarkets; Call (ApiKeyManager secret_name)]
      ++ trace s.
Proof.
  intros Hk Hcred Hfail Hok. unfold connect.
  destruct (while_retries_after_failures (connect_attempt w secret_name sandbox)
              (fun _ => ret false) false (self s)
              [Call LoadMarkets; Call (ApiKeyManager secret_name)] 2 k
              (clock s) (Z.to_nat max_retries) s)
    as (s0 & Hme0 & Hc0 & Htr0 & Hloop); try reflexivity; try lia.
  - intros j s0 Hj Hme Hclock.
    destruct (Hfail j Hj) as (e & He & Hnet).
    pose proof (Hcred j ltac:(lia)) as Hkey.
    rewrite <- Hclock in He, Hkey.
    exists e. eexists.
    split; [apply (connect_attempt_fail _ _ _ _ _ _ _ Hkey He) |].
    repeat split; [exact Hnet | exact Hme].
  - rewrite Hloop.
    destruct (Z.to_nat max_retries - k) as [|m] eqn:Hm; [lia |].
    pose proof (Hcred k ltac:(lia)) as Hkey.
    rewrite <- Hc0 in Hok, Hkey.
    eexists. split; [| split].
    + apply while_retries_returned.
      apply (connect_attempt_ok _ _ _ _ _ _ _ Hkey Hok).
    + simpl. rewrite Hme0. reflexivity.
    + simpl. rewrite Htr0. reflexivity.
Qed.

(** The theorem where the exchange answers from the third tick of the
    clock on: the first [load_markets] times out, the second is
    answered. *)
Lemma connect_succeeds_after_network_errors_witness :
  exists s',
    connect (recovering_world 2) "bybit-secret" true 3 unconnected
    = (Returned true, s') /\
    client (self s') = Some (new_exchange "key" "secret" true) /\
    markets (self s') = Some ["BTC/USDT"] /\
    trace s'
    = [Call LoadMarkets; Call (ApiKeyManager "bybit-secret"); Sleep 3;
       Call LoadMarkets; Call (ApiKeyManager "bybit-secret")].
Proof.
  destruct (connect_succeeds_after_network_errors (recovering_world 2)
              unconnected "bybit-secret" true 3 1 "key" "secret" ["BTC/USDT"])
    as (s' & Hrun & Hself & Htr).
  - reflexivity.
  - intros j Hj. reflexivity.
  - intros j Hj. assert (j = 0) as -> by lia.
    exists request_timeout. split; reflexivity.
  - reflexivity.
  - exists s'. rewrite Hself. repeat split; assumption.
Defined.

(** X9. When the balance payload has the currency, [get_total_currency]
    returns the [total] of its entry, and 0 when the entry has no [total]:
    a currency that is not held at all ([None]) and an entry without a
    total (0) are told apart. *)
Theorem get_total_currency_reads_total
    (w : world) (s : state) (c : ccxt_exchange) (currency : string)
    (max_retries : Z) (k : nat) (balance : gmap string (gmap string Q))
    (entry : gmap string Q) :
  client (self s) = Some c ->
  (Z.of_nat k < max_retries)%Z ->
  (forall j, j < k -> raises_network (fetch_balance w (clock s + j) c)) ->
  fetch_balance w (clock s + k) c = Ok balance ->
  balance !! currency = Some entry ->
  (forall total,
     entry !! "total" = Some total ->
     fst (get_total_currency w currency max_retries s) = Returned (Some total)) /\
  (entry !! "total" = None ->
   fst (get_total_currency w currency max_retries s) = Returned (Some 0%Q)).
Proof.
  intros Hc Hk Hfail Hok Hentry.
  rewrite (get_total_currency_with_client w c currency _ s Hc).
  rewrite (get_total_currency_after_failures w c currency balance k
             (Z.to_nat max_retries) s Hc ltac:(lia) Hfail Hok).
  unfold total_in. rewrite Hentry.
  split; [intros total Htotal | intros Htotal]; rewrite Htotal; reflexivity.
Qed.

(** The theorem where the first balance request times out: the total of
    USDT is 50, and the entry [free] of the payload, which has no total,
    gives 0. *)
Lemma get_total_currency_reads_total_witness :
  fst (get_total_currency flaky_world "USDT" 3 connected)
  = Returned (Some 50%Q) /\
  fst (get_total_currency flaky_world "free" 3 connected)
  = Returned (Some 0%Q).
Proof.
  assert (Hfail : forall j, j < 1 ->
            raises_network (fetch_balance flaky_world (clock connected + j)
                              demo_exchange)).
  { intros j Hj. assert (j = 0) as -> by lia.
    exists request_timeout. split; reflexivity. }
  split.
  - apply (get_total_currency_reads_total flaky_world connected demo_exchange
             "USDT" 3 1 demo_balance
             (<["free" := 50%Q]> (<["used" := 0%Q]> {["total" := 50%Q]}))
             eq_refl eq_refl Hfail eq_refl).
    + vm_compute. reflexivity.
    + vm_compute. reflexivity.
  - apply (get_total_currency_reads_total flaky_world connected demo_exchange
             "free" 3 1 demo_balance {["USDT" := 50%Q]}
             eq_refl eq_refl Hfail eq_refl).
    + vm_compute. reflexivity.
    + vm_compute. reflexivity.
Defined.

(* ===================================================================== *)
(** ** TradeMatcher: where the history is cut *)
(* ===================================================================== *)

Lemma scan_reversed_cut (trades : list trade) :
  forall rest prev i,
    scan_reversed trades prev i rest
    = match cut_index prev i rest with
      | Some j => slice_from trades (- Z.of_nat j)
      | None => trades
      end.
Proof.
  induction rest as [|t rest IH]; intros prev i; simpl; [reflexivity |].
  destruct (side_is prev "buy" && side_is (side t) "sell"); [reflexivity |].
  destruct (side_is (side t) "buy"); [apply IH |].
  destruct (side_is (side t) "sell"); apply IH.
Qed.

(** After a buy, a scan that does not cut has met no sell. *)
Lemma no_cut_after_buy :
  forall rest prev i,
    cut_index prev i rest = None ->
    side_is prev "buy" = true ->
    forall t, t ∈ rest -> is_sell t = false.
Proof.
  induction rest as [|t rest IH]; intros prev i Hcut Hprev x Hin;
    [inversion Hin |].
  simpl in Hcut. rewrite Hprev in Hcut. simpl in Hcut.
  destruct (side_is (side t) "sell") eqn:Hsell; [discriminate Hcut |].
  apply elem_of_cons in Hin as [-> | Hin]; [exact Hsell |].
  destruct (side_is (side t) "buy").
  - apply (IH _ _ Hcut eq_refl x Hin).
  - apply (IH _ _ Hcut Hprev x Hin).
Qed.

(** A scan that does not cut has met no buy before a sell. *)
Lemma no_cut_no_buy_then_sell :
  forall rest prev i,
    cut_index prev i rest = None -> ~ buy_then_sell rest.
Proof.
  induction rest as [|t rest IH];
    intros prev i Hcut (pre & a & mid & b & post & Heq & Ha & Hb).
  - destruct pre; discriminate Heq.
  - simpl in Hcut.
    destruct (side_is prev "buy" && side_is (side t) "sell");
      [discriminate Hcut |].
    destruct pre as [|p pre]; simpl in Heq; inversion Heq; subst.
    + unfold is_buy in Ha. rewrite Ha in Hcut.
      assert (Hno : is_sell b = false).
      { apply (no_cut_after_buy _ _ _ Hcut eq_refl).
        apply elem_of_app. right. left. }
      congruence.
    + assert (Hpat : buy_then_sell (pre ++ a :: mid ++ b :: post))
        by (exists pre, a, mid, b, post; auto).
      destruct (side_is (side p) "buy");
        [| destruct (side_is (side p) "sell")];
        apply (IH _ _ Hcut Hpat).
Qed.

(** Where the scan cuts: at a sell, after a part without a cut that has a
    buy (or after a buy seen before). *)
Lemma cut_index_some :
  forall rest prev i j,
    cut_index prev i rest = Some j ->
    exists visited b rest',
      rest = visited ++ b :: rest' /\
      j = i + length visited /\
      is_sell b = true /\
      cut_index prev i visited = None /\
      (side_is prev "buy" = true \/ exists a, a ∈ visited /\ is_buy a = true).
Proof.
  induction rest as [|t rest IH]; intros prev i j Hcut; [discriminate Hcut |].
  simpl in Hcut.
  destruct (side_is prev "buy" && side_is (side t) "sell") eqn:Hhere.
  - inversion Hcut; subst j. apply andb_true_iff in Hhere as [Hp Ht].
    exists [], t, rest. simpl.
    split; [reflexivity |]. split; [lia |]. split; [exact Ht |].
    split; [reflexivity | left; exact Hp].
  - destruct (side_is (side t) "buy") eqn:Hbuy;
      [| destruct (side_is (side t) "sell") eqn:Hsell];
      destruct (IH _ _ _ Hcut) as (v & b & r & -> & -> & Hb & Hnone & Hseen);
      exists (t :: v), b, r; simpl.
    + rewrite Hhere, Hbuy.
      split; [reflexivity |]. split; [lia |]. split; [exact Hb |].
      split; [exact Hnone |].
      right. exists t. split; [left | exact Hbuy].
    + rewrite Hsell, Hhere, Hbuy.
      split; [reflexivity |]. split; [lia |]. split; [exact Hb |].
      split; [exact Hnone |].
      destruct Hseen as [Hp | (a & Ha & Hab)]; [discriminate Hp |].
      right. exists a. split; [right; exact Ha | exact Hab].
    + rewrite Hsell, Hhere, Hbuy.
      split; [reflexivity |]. split; [lia |]. split; [exact Hb |].
      split; [exact Hnone |].
      destruct Hseen as [Hp | (a & Ha & Hab)]; [left; exact Hp |].
      right. exists a. split; [right; exact Ha | exact Hab].
Qed.

(** Without a buy before a sell the scan does not cut. *)
Lemma no_buy_then_sell_no_cut :
  forall rest prev i,
    ~ buy_then_sell rest ->
    (side_is prev "buy" = true -> forall t, t ∈ rest -> is_sell t = false) ->
    cut_index prev i rest = None.
Proof.
  induction rest as [|t rest IH]; intros prev i Hpat Hprev; simpl;
    [reflexivity |].
  assert (Hrest : ~ buy_then_sell rest).
  { intros (pre & a & mid & b & post & -> & Ha & Hb). apply Hpat.
    exists (t :: pre), a, mid, b, post. auto. }
  destruct (side_is prev "buy") eqn:Hp; simpl.
  - assert (Ht : side_is (side t) "sell" = false)
      by (apply (Hprev eq_refl t); left).
    rewrite Ht.
    destruct (side_is (side t) "buy"); apply IH; auto;
      intros _ x Hx; apply (Hprev eq_refl x); right; exact Hx.
  - destruct (side_is (side t) "buy") eqn:Hbuy.
    + apply IH; [exact Hrest |]. intros _ x Hx.
      destruct (is_sell x) eqn:Hsx; [| reflexivity].
      exfalso. apply Hpat.
      apply list_elem_of_In, in_split in Hx as (mid & post & ->).
      exists [], t, mid, x, post. auto.
    + destruct (side_is (side t) "sell"); apply IH; auto;
        intros Hx; try rewrite Hp in Hx; vm_compute in Hx; discriminate Hx.
Qed.

Lemma sell_before_buy_rev (l : list trade) :
  sell_before_buy l <-> buy_then_sell (rev l).
Proof.
  split.
  - intros (pre & a & mid & b & post & -> & Ha & Hb).
    exists (rev post), b, (rev mid), a, (rev pre).
    repeat split; auto.
    rewrite rev_app_distr. simpl. rewrite rev_app_distr. simpl.
    rewrite <- !app_assoc. reflexivity.
  - intros (pre & a & mid & b & post & Heq & Ha & Hb).
    exists (rev post), b, (rev mid), a, (rev pre).
    repeat split; auto.
    rewrite <- (rev_involutive l), Heq.
    rewrite rev_app_distr. simpl. rewrite rev_app_distr. simpl.
    rewrite <- !app_assoc. reflexivity.
Qed.

(** What [most_recent_trade_of] returns: the whole history when the scan
    does not cut; otherwise the fills after a sell, with a buy among them
    and no buy before a sell in the order of the scan. *)
Lemma most_recent_trade_of_cases (l : list trade) :
  (most_recent_trade_of l = l /\ ~ buy_then_sell (rev l)) \/
  (exists pre b cycle,
     l = pre ++ b :: cycle /\ most_recent_trade_of l = cycle /\
     is_sell b = true /\ ~ buy_then_sell (rev cycle) /\
     exists a, a ∈ cycle /\ is_buy a = true).
Proof.
  destruct l as [|t0 l0] eqn:Hl.
  - left. split; [reflexivity |].
    intros (pre & a & mid & b & post & Heq & _). destruct pre; discriminate Heq.
  - rewrite <- Hl. unfold most_recent_trade_of. rewrite Hl, <- Hl.
    rewrite scan_reversed_cut.
    destruct (cut_index None 0 (rev l)) as [j|] eqn:Hcut.
    + right.
      destruct (cut_index_some _ _ _ _ Hcut)
        as (v & b & r & Hrev & -> & Hb & Hnone & Hseen).
      destruct Hseen as [Hp | (a & Ha & Hab)]; [discriminate Hp |].
      assert (Heq : l = rev r ++ b :: rev v).
      { rewrite <- (rev_involutive l), Hrev, rev_app_distr. simpl.
        rewrite <- app_assoc. reflexivity. }
      exists (rev r), b, (rev v).
      split; [exact Heq |]. split.
      * unfold slice_from. simpl Nat.add.
        assert (Hv : 1 <= length v)
          by (destruct v; [inversion Ha | simpl; lia]).
        replace (- Z.of_nat (length v) <? 0)%Z with true
          by (symmetry; apply Z.ltb_lt; lia).
        rewrite Heq at 2.
        replace (Z.to_nat (Z.max (Z.of_nat (length l) + - Z.of_nat (length v)) 0))
          with (length (rev r ++ [b])).
        -- rewrite (app_assoc (rev r) [b] (rev v)) at 1.
           replace (rev r ++ b :: rev v) with ((rev r ++ [b]) ++ rev v)
             by (rewrite <- app_assoc; reflexivity).
           apply drop_app_length.
        -- rewrite Heq, !length_app. simpl. rewrite !length_rev. lia.
      * split; [exact Hb |]. split.
        -- rewrite rev_involutive. apply (no_cut_no_buy_then_sell _ _ _ Hnone).
        -- exists a. split; [| exact Hab].
           apply list_elem_of_In, in_rev. rewrite rev_involutive.
           apply list_elem_of_In. exact Ha.
    + left. split; [reflexivity |].
      apply (no_cut_no_buy_then_sell _ _ _ Hcut).
Qed.

(** X10. In the matched cycle no sell fill comes before a buy fill: the
    cycle is buys followed by sells (fills of another side apart). *)
Theorem matched_cycle_has_no_sell_before_buy (trades : list trade) :
  ~ sell_before_buy (most_recent_trade_of trades).
Proof.
  intros Hpat. apply sell_before_buy_rev in Hpat.
  destruct (most_recent_trade_of_cases trades)
    as [(Heq & Hno) | (pre & b & cycle & _ & Heq & _ & Hno & _)];
    rewrite Heq in Hpat; exact (Hno Hpat).
Qed.

(** The theorem at the history of the example: its matched cycle, the two
    last buys, has no sell before a buy. *)
Lemma matched_cycle_has_no_sell_before_buy_witness :
  ~ sell_before_buy [buy_fill 3 1 90; buy_fill 4 1 110].
Proof.
  exact (matched_cycle_has_no_sell_before_buy (demo_history "BTC/USDT")).
Defined.

(** X11. The history is cut right after a sell fill that has a buy fill
    after it, whatever the amounts: either the whole history is returned,
    or the fill just before the matched cycle is a sell and the cycle has
    a buy. *)
Theorem matched_cycle_starts_after_a_sell (trades : list trade) :
  most_recent_trade_of trades = trades \/
  exists pre b,
    trades = pre ++ b :: most_recent_trade_of trades /\
    is_sell b = true /\
    exists a, a ∈ most_recent_trade_of trades /\ is_buy a = true.
Proof.
  destruct (most_recent_trade_of_cases trades)
    as [(Heq & _) | (pre & b & cycle & Hl & Heq & Hb & _ & Ha)].
  - left. exact Heq.
  - right. exists pre, b. rewrite Heq. auto.
Qed.

(** X12. The whole history is returned exactly when it has no sell fill
    before a buy fill; so matching is idempotent: the matched cycle of a
    matched cycle is that cycle. *)
Theorem whole_history_iff_no_sell_before_buy (trades : list trade) :
  (most_recent_trade_of trades = trades <-> ~ sell_before_buy trades) /\
  most_recent_trade_of (most_recent_trade_of trades)
  = most_recent_trade_of trades.
Proof.
  assert (Hback : forall l, ~ sell_before_buy l -> most_recent_trade_of l = l).
  { intros l Hno. destruct l as [|t l0] eqn:Hl; [reflexivity |].
    rewrite <- Hl in *. unfold most_recent_trade_of. rewrite Hl, <- Hl.
    rewrite scan_reversed_cut.
    rewrite (no_buy_then_sell_no_cut (rev l) None 0); [reflexivity | |].
    - intros Hpat. apply Hno. apply sell_before_buy_rev. exact Hpat.
    - intros Hp. discriminate Hp. }
  split.
  - split; [| apply Hback].
    intros Heq Hpat. apply sell_before_buy_rev in Hpat.
    destruct (most_recent_trade_of_cases trades)
      as [(_ & Hno) | (pre & b & cycle & Hl & Hcycle & _)];
      [exact (Hno Hpat) |].
    rewrite Heq in Hcycle. subst cycle.
    apply (f_equal length) in Hl. rewrite length_app in Hl. simpl in Hl. lia.
  - apply Hback.
    intros Hpat. apply sell_before_buy_rev in Hpat.
    destruct (most_recent_trade_of_cases trades)
      as [(Heq & Hno) | (pre & b & cycle & _ & Heq & _ & Hno & _)];
      rewrite Heq in Hpat; exact (Hno Hpat).
Qed.

(** The theorem at a closed cycle, which is returned whole. *)
Lemma whole_history_iff_no_sell_before_buy_witness :
  ~ sell_before_buy [buy_fill 1 1 100; sell_fill 2 1] /\
  most_recent_trade_of (most_recent_trade_of (demo_history "BTC/USDT"))
  = most_recent_trade_of (demo_history "BTC/USDT").
Proof.
  split.
  - apply (proj1 (whole_history_iff_no_sell_before_buy
                    [buy_fill 1 1 100; sell_fill 2 1])).
    reflexivity.
  - apply (proj2 (whole_history_iff_no_sell_before_buy
                    (demo_history "BTC/USDT"))).
Defined.

(* ===================================================================== *)
(** ** TradeValuation, further *)
(* ===================================================================== *)




(** Fills of another side leave the accumulators as they are. *)
Lemma value_loop_skips_other_sides (trades : list trade) :
  forall acc,
    fold_left value_step
      (filter (fun t => is_buy t || is_sell t) trades) acc
    = fold_left value_step trades acc.
Proof.
  induction trades as [|t l IH]; intros acc; [reflexivity |].
  rewrite filter_cons.
  destruct (decide (is_buy t || is_sell t)) as [Hside | Hside]; simpl.
  - apply IH.
  - rewrite IH. f_equal.
    unfold is_buy, is_sell in Hside. unfold value_step.
    destruct acc as [[v o] b].
    destruct (side_is (side t) "buy"); [exfalso; apply Hside; exact I |].
    destruct (side_is (side t) "sell"); [exfalso; apply Hside; exact I |].
    reflexivity.
Qed.

(** X15. Fills whose side is neither ["buy"] nor ["sell"] (a missing side
    included) do not count: the valuation is the valuation of the buy and
    sell fills alone. *)
Theorem valuation_ignores_other_sides (trades : list trade) :
  get_trade_value_usd (filter (fun t => is_buy t || is_sell t) trades)
  = get_trade_value_usd trades.
Proof.
  unfold get_trade_value_usd. rewrite value_loop_skips_other_sides.
  reflexivity.
Qed.





(* ===================================================================== *)
(** ** AllocationCalculator, further *)
(* ===================================================================== *)





(** X18. When the exchange rejects the fills request of the first active
    strategy, [get_most_recent_trade] raises the rejection and
    [get_account_allocation] gives up on the whole mapping: it returns
    [None] after these three requests, without a retry and without a
    sleep. *)
Theorem allocation_aborts_when_fills_are_rejected
    (w : world) (s : state) (c : ccxt_exchange) (e : exn) (max_retries : Z)
    (balance : gmap string (gmap string Q)) (free : gmap string Q)
    (cfg : config) (rest : list config) :
  client (self s) = Some c ->
  (0 < max_retries)%Z ->
  except_clause e = HExchange ->
  fetch_balance w (clock s) c = Ok balance ->
  balance !! "free" = Some free ->
  get_active_strategy_configs w (S (clock s)) = Ok (cfg :: rest) ->
  fetch_my_trades w (S (S (clock s))) c (cfg_symbol cfg) = Fail e ->
  get_account_allocation w max_retries s
  = (Returned None,
     tick (record (Call (FetchMyTrades (cfg_symbol cfg)))
             (tick (record (Call GetActiveStrategyConfigs)
                      (tick (record (Call FetchBalance) s)))))).
Proof.
  intros Hc Hpos Hex Hbal Hfree Hcfg Hfills.
  unfold get_account_allocation.
  destruct (Z.to_nat max_retries) as [|n] eqn:Hn; [lia |].
  rewrite (while_retries_exchange _ _ _ _ _ _ e
             (tick (record (Call (FetchMyTrades (cfg_symbol cfg)))
                      (tick (record (Call GetActiveStrategyConfigs)
                               (tick (record (Call FetchBalance) s))))))).
  - reflexivity.
  - run_attempt. rewrite Hc. simpl. rewrite Hbal. simpl. rewrite Hfree. simpl.
    rewrite Hcfg. simpl. unfold bind.
    pose (s2 := tick (record (Call GetActiveStrategyConfigs)
                        (tick (record (Call FetchBalance) s)))).
    assert (Hm : get_most_recent_trade w (cfg_symbol cfg) 3 s2
                 = (Raised e, tick (record (Call (FetchMyTrades (cfg_symbol cfg))) s2))).
    { unfold get_most_recent_trade.
      change (Z.to_nat 3) with 3.
      assert (Hc2 : client (self s2) = Some c) by exact Hc.
      assert (Hf2 : fetch_my_trades w (clock s2) c (cfg_symbol cfg) = Fail e)
        by exact Hfills.
      rewrite (while_retries_exchange _ _ _ _ _ _ _ _
                 (get_most_recent_trade_attempt_fail w s2 c _ e Hc2 Hf2) Hex).
      reflexivity. }
    unfold s2 in Hm. rewrite Hm. reflexivity.
  - exact Hex.
Qed.

(** The theorem where the exchange answers the balance and rejects the
    fills request. *)
Lemma allocation_aborts_when_fills_are_rejected_witness :
  get_account_allocation fills_rejected_world 3 connected
  = (Returned None,
     tick (record (Call (FetchMyTrades "BTC/USDT"))
             (tick (record (Call GetActiveStrategyConfigs)
                      (tick (record (Call FetchBalance) connected)))))).
Proof.
  apply (allocation_aborts_when_fills_are_rejected fills_rejected_world
           connected demo_exchange
           bad_symbol 3 demo_balance {["USDT" := 50%Q]}
           {| cfg_symbol := "BTC/USDT"; cfg_currency := "BTC" |}
           [{| cfg_symbol := "ETH/USDT"; cfg_currency := "ETH" |}]);
    reflexivity.
Defined.

(** X19. A balance payload without the key [free] is fatal for
    [get_account_allocation]: it raises [AttributeError] after the one
    balance request, and the active strategies are not asked for. *)
Theorem allocation_needs_the_free_balances
    (w : world) (s : state) (c : ccxt_exchange) (max_retries : Z)
    (balance : gmap string (gmap string Q)) :
  client (self s) = Some c ->
  (0 < max_retries)%Z ->
  fetch_balance w (clock s) c = Ok balance ->
  balance !! "free" = None ->
  get_account_allocation w max_retries s
  = (Raised (none_has_no_attribute "get"), tick (record (Call FetchBalance) s)).
Proof.
  intros Hc Hpos Hbal Hfree. unfold get_account_allocation.
  destruct (Z.to_nat max_retries) as [|n] eqn:Hn; [lia |].
  apply while_retries_unexpected; [| reflexivity].
  run_attempt. rewrite Hc. simpl. rewrite Hbal. simpl. rewrite Hfree.
  reflexivity.
Qed.

(** The theorem at an empty balance payload. *)
Lemma allocation_needs_the_free_balances_witness :
  get_account_allocation (steady_world ∅ demo_configs demo_history) 3 connected
  = (Raised (none_has_no_attribute "get"),
     tick (record (Call FetchBalance) connected)).
Proof.
  apply (allocation_needs_the_free_balances _ connected demo_exchange 3 ∅);
    reflexivity.
Defined.

(* ===================================================================== *)
(** ** The handlers: the stop keyword *)
(* ===================================================================== *)

Lemma prefix_spec (s1 s2 : string) :
  String.prefix s1 s2 = true <-> exists t, s2 = s1 +:+ t.
Proof.
  revert s2. induction s1 as [|a s1 IH]; intros s2.
  - split; [intros _; exists s2; reflexivity |].
    intros _. destruct s2; reflexivity.
  - destruct s2 as [|b s2]; simpl.
    + split; [discriminate | intros (t & Ht); discriminate Ht].
    + destruct (Ascii.ascii_dec a b) as [-> | Hne].
      * rewrite IH. split; intros (t & Ht); exists t.
        -- rewrite Ht. reflexivity.
        -- inversion Ht. reflexivity.
      * split; [discriminate |].
        intros (t & Ht). inversion Ht. congruence.
Qed.

Lemma py_contains_spec (needle hay : string) :
  py_contains needle hay = true <->
  exists a b, hay = a +:+ needle +:+ b.
Proof.
  induction hay as [|c hay IH]; cbn [py_contains].
  - rewrite orb_false_r, prefix_spec. split.
    + intros (t & Ht). exists EmptyString, t. exact Ht.
    + intros (a & b & Hab). destruct a as [|x a]; [| discriminate Hab].
      exists b. exact Hab.
  - rewrite orb_true_iff, prefix_spec, IH. split.
    + intros [(t & Ht) | (a & b & Hab)].
      * exists EmptyString, t. exact Ht.
      * exists (String c a), b. simpl. rewrite Hab. reflexivity.
    + intros (a & b & Hab). destruct a as [|x a]; simpl in Hab.
      * left. exists b. exact Hab.
      * right. inversion Hab. exists a, b. reflexivity.
Qed.

Lemma py_lower_app (a b : string) :
  py_lower (a +:+ b) = py_lower a +:+ py_lower b.
Proof. induction a as [|x a IH]; simpl; [| rewrite IH]; reflexivity. Qed.

Lemma py_lower_split (s a' b' : string) :
  py_lower s = a' +:+ b' ->
  exists a b, s = a +:+ b /\ py_lower a = a' /\ py_lower b = b'.
Proof.
  revert s. induction a' as [|x a' IH]; intros s Hs; simpl in Hs.
  - exists EmptyString, s. auto.
  - destruct s as [|y s]; [discriminate Hs |]. simpl in Hs.
    inversion Hs as [[Hx Hrest]].
    destruct (IH _ Hrest) as (a & b & -> & Ha & Hb).
    exists (String y a), b. simpl. rewrite Ha. auto.
Qed.

Lemma lower_ascii_idempotent (a : Ascii.ascii) :
  lower_ascii (lower_ascii a) = lower_ascii a.
Proof.
  destruct a as [[] [] [] [] [] [] [] []]; vm_compute; reflexivity.
Qed.

Lemma py_lower_idempotent (s : string) : py_lower (py_lower s) = py_lower s.
Proof.
  induction s as [|a s IH]; simpl;
    [| rewrite lower_ascii_idempotent, IH]; reflexivity.
Qed.

(** X20. A comment is a stop comment exactly when it has, anywhere, four
    characters that lower to [stop]: the keyword is found in any case and
    inside longer words, and the test does not depend on the case of the
    comment. *)
Theorem stop_comment_has_the_keyword_in_any_case (comment : string) :
  (is_stop_comment comment = true <->
   exists a x b, comment = a +:+ x +:+ b /\ py_lower x = "stop") /\
  is_stop_comment (py_lower comment) = is_stop_comment comment.
Proof.
  split.
  - unfold is_stop_comment. rewrite py_contains_spec. split.
    + intros (a' & b' & Hab).
      destruct (py_lower_split _ _ _ Hab) as (a & r & -> & Ha & Hr).
      destruct (py_lower_split _ _ _ Hr) as (x & b & -> & Hx & Hb).
      exists a, x, b. auto.
    + intros (a & x & b & -> & Hx).
      exists (py_lower a), (py_lower b).
      rewrite !py_lower_app, Hx. reflexivity.
  - unfold is_stop_comment. rewrite py_lower_idempotent. reflexivity.
Qed.

(** The theorem at a comment with the keyword in capitals. *)
Lemma stop_comment_has_the_keyword_in_any_case_witness :
  exists a x b,
    "Trailing STOP hit" = a +:+ x +:+ b /\ py_lower x = "stop".
Proof.
  apply (proj1 (stop_comment_has_the_keyword_in_any_case "Trailing STOP hit")).
  reflexivity.
Defined.

(* ===================================================================== *)
(** ** The handlers: where a signal goes *)
(* ===================================================================== *)

Lemma trace_grows_by_cons {E} (x : E) (l evs tr : list E) :
  l = evs ++ tr -> x :: l = (x :: evs) ++ tr.
Proof. intros ->. reflexivity. Qed.

Ltac trace_prefix :=
  repeat apply trace_grows_by_cons;
  match goal with |- ?tr = _ ++ ?tr => exact (eq_refl : tr = [] ++ tr) end.

(** X21. [receive_trade_signals] sends a signal either to the exchange or
    to the database, never to both: with a stop comment it makes no call
    to the database, and without one it makes no call to the exchange,
    however the collaborators answer. *)
Theorem signal_goes_to_exchange_or_database
    (aw : app_world) (trade_in trade_out : gmap string sigval)
    (comment : string) (s : app_state) :
  preprocess_trade_signal aw (app_clock s) trade_in = Ok trade_out ->
  trade_out !! "order_comment" = Some (SStr comment) ->
  exists evs,
    app_trace (snd (receive_trade_signals aw trade_in s))
    = evs ++ app_trace s /\
    (is_stop_comment comment = true ->
     Forall (fun ev => is_database_event ev = false) evs) /\
    (is_stop_comment comment = false ->
     Forall (fun ev => is_exchange_event ev = false) evs).
Proof.
  intros Hpre Hcomment. run_handler. rewrite Hpre. simpl.
  rewrite Hcomment. simpl.
  destruct (is_stop_comment comment); simpl; split_oracles;
    eexists; (split; [trace_prefix |]);
    split; intros Hcase; try discriminate Hcase;
    repeat constructor.
Qed.

(** The theorem at a stop signal, in any case of the keyword. *)
Lemma signal_goes_to_exchange_or_database_witness :
  is_stop_comment "Trailing STOP hit" = true /\
  exists evs,
    app_trace (snd (receive_trade_signals (app_demo_world true []) stop_signal
                      fresh)) = evs ++ app_trace fresh /\
    Forall (fun ev => is_database_event ev = false) evs.
Proof.
  split; [reflexivity |].
  destruct (signal_goes_to_exchange_or_database (app_demo_world true [])
              stop_signal stop_signal "Trailing STOP hit" fresh)
    as (evs & Htrace & Hstop & _).
  - reflexivity.
  - vm_compute. reflexivity.
  - exists evs. split; [exact Htrace | apply Hstop; reflexivity].
Defined.

(** X22. The stop loss is executed whatever [connect] answers: the
    handler does not look at the answer, so after a [connect] that
    answered [False] as after one that answered [True],
    [execute_long_stop] is called on the exchange, with the processed
    signal and an increment of 0.001; only an exception stops the
    handler. *)
Theorem stop_loss_runs_whatever_connect_answers
    (aw : app_world) (trade_in trade_out : gmap string sigval)
    (comment : string) (s : app_state) (sandbox connected : bool)
    (exchange : nat) (placed : order) :
  preprocess_trade_signal aw (app_clock s) trade_in = Ok trade_out ->
  trade_out !! "order_comment" = Some (SStr comment) ->
  is_stop_comment comment = true ->
  get_env_var aw (1 + app_clock s) "SANDBOX" = Ok sandbox ->
  new_Exchange aw (2 + app_clock s) (environ aw !! "EXCHANGE_NAME")
    (environ aw !! "BASE_CURRENCY") = Ok exchange ->
  Exchange_connect aw (3 + app_clock s) exchange (environ aw !! "SECRET_NAME")
    sandbox = Ok connected ->
  execute_long_stop aw (4 + app_clock s) exchange trade_out (1 # 1000)
  = Ok placed ->
  receive_trade_signals aw trade_in s
  = (Done tt,
     {| app_clock := 5 + app_clock s;
        app_trace :=
          [ExecuteLongStop exchange trade_out (1 # 1000);
           ExchangeConnect exchange (environ aw !! "SECRET_NAME") sandbox;
           NewExchange (environ aw !! "EXCHANGE_NAME")
             (environ aw !! "BASE_CURRENCY");
           GetEnvVar "SANDBOX";
           PreprocessTradeSignal trade_in] ++ app_trace s |}).
Proof.
  intros Hpre Hcomment Hstop Hsandbox Hnew Hconnect Hexec.
  run_handler. rewrite Hpre. simpl. rewrite Hcomment. simpl.
  rewrite Hstop. simpl in *. rewrite Hsandbox. simpl. rewrite Hnew. simpl.
  rewrite Hconnect. simpl. rewrite Hexec. reflexivity.
Qed.

(** The theorem where [connect] answers [False]. *)
Lemma stop_loss_runs_whatever_connect_answers_witness :
  receive_trade_signals (app_demo_world false []) stop_signal fresh
  = (Done tt,
     {| app_clock := 5;
        app_trace :=
          [ExecuteLongStop 7 stop_signal (1 # 1000);
           ExchangeConnect 7 (Some "bybit-secret") false;
           NewExchange (Some "bybit") (Some "USDT");
           GetEnvVar "SANDBOX";
           PreprocessTradeSignal stop_signal] |}).
Proof.
  apply (stop_loss_runs_whatever_connect_answers (app_demo_world false [])
           stop_signal stop_signal "Trailing STOP hit" fresh false false 7
           placed_order); reflexivity.
Defined.

(** X23. What a signal without its keys does.  Without a string under
    [order_comment] the handler faults right after the preprocessing,
    before any call to the exchange or the database.  Without [ticker], a
    signal that is not a stop signal is first put in the table and the
    handler faults afterwards, on the key. *)
Theorem signal_with_missing_keys
    (aw : app_world) (trade_in trade_out : gmap string sigval)
    (s : app_state) :
  preprocess_trade_signal aw (app_clock s) trade_in = Ok trade_out ->
  ((forall comment, trade_out !! "order_comment" <> Some (SStr comment)) ->
   receive_trade_signals aw trade_in s
   = (Fault HasNoLower,
      {| app_clock := 1 + app_clock s;
         app_trace := PreprocessTradeSignal trade_in :: app_trace s |})) /\
  (forall comment manager table,
     trade_out !! "order_comment" = Some (SStr comment) ->
     is_stop_comment comment = false ->
     trade_out !! "ticker" = None ->
     new_DynamoDBManager aw (1 + app_clock s) = Ok manager ->
     get_table aw (2 + app_clock s) manager (environ aw !! "TABLE_NAME")
     = Ok table ->
     put_item aw (3 + app_clock s) table trade_out = Ok tt ->
     receive_trade_signals aw trade_in s
     = (Fault (MissingKey "ticker"),
        {| app_clock := 4 + app_clock s;
           app_trace :=
             [PutItem table trade_out;
              GetTable manager (environ aw !! "TABLE_NAME");
              NewDynamoDBManager;
              PreprocessTradeSignal trade_in] ++ app_trace s |})).
Proof.
  intros Hpre. split.
  - intros Hnone. run_handler. rewrite Hpre. simpl.
    destruct (trade_out !! "order_comment") as [[comment| |]|]; try reflexivity.
    destruct (Hnone comment eq_refl).
  - intros comment manager table Hcomment Hstop Hticker Hman Htable Hput.
    run_handler. rewrite Hpre. simpl. rewrite Hcomment. simpl.
    rewrite Hstop. simpl in *. rewrite Hman. simpl. rewrite Htable. simpl.
    rewrite Hput. simpl. rewrite Hticker. reflexivity.
Qed.

(** The theorem at an entry signal without ticker: it is stored, and the
    handler faults. *)
Lemma signal_with_missing_keys_witness :
  receive_trade_signals (app_demo_world true []) entry_signal fresh
  = (Fault (MissingKey "ticker"),
     {| app_clock := 4;
        app_trace := [PutItem 2 entry_signal; GetTable 1 (Some "signals");
                      NewDynamoDBManager; PreprocessTradeSignal entry_signal] |}).
Proof.
  destruct (signal_with_missing_keys (app_demo_world true []) entry_signal
              entry_signal fresh eq_refl) as [_ Hstored].
  apply (Hstored "long entry" 1 2); reflexivity.
Defined.

(** X24. [execute_trade_signals] connects to the exchange only when the
    database has recent signals: without signals it ends after its two
    reads; with signals it connects and, whatever [connect] answers,
    passes all of them to [buy_side_boost] with an increment of 0.001. *)
Theorem scheduled_run_trades_only_recent_signals
    (aw : app_world) (s : app_state) (utcnow : Z)
    (recent : list (gmap string sigval)) :
  get_utc_now_rounded aw (app_clock s) = Ok utcnow ->
  get_all_recent_signals aw (1 + app_clock s) utcnow (environ aw !! "TABLE_NAME")
  = Ok recent ->
  (recent = [] ->
   execute_trade_signals aw s
   = (Done tt,
      {| app_clock := 2 + app_clock s;
         app_trace := [GetAllRecentSignals utcnow (environ aw !! "TABLE_NAME");
                       GetUtcNowRounded] ++ app_trace s |})) /\
  (forall sandbox exchange connected orders,
     recent <> [] ->
     get_env_var aw (2 + app_clock s) "SANDBOX" = Ok sandbox ->
     new_Exchange aw (3 + app_clock s) (environ aw !! "EXCHANGE_NAME")
       (environ aw !! "BASE_CURRENCY") = Ok exchange ->
     Exchange_connect aw (4 + app_clock s) exchange
       (environ aw !! "SECRET_NAME") sandbox = Ok connected ->
     buy_side_boost aw (5 + app_clock s) exchange recent (1 # 1000) = Ok orders ->
     execute_trade_signals aw s
     = (Done tt,
        {| app_clock := 6 + app_clock s;
           app_trace :=
             [BuySideBoost exchange recent (1 # 1000);
              ExchangeConnect exchange (environ aw !! "SECRET_NAME") sandbox;
              NewExchange (environ aw !! "EXCHANGE_NAME")
                (environ aw !! "BASE_CURRENCY");
              GetEnvVar "SANDBOX";
              GetAllRecentSignals utcnow (environ aw !! "TABLE_NAME");
              GetUtcNowRounded] ++ app_trace s |})).
Proof.
  intros Hnow Hrecent. simpl in Hrecent. split.
  - intros ->. run_handler. rewrite Hnow. simpl. rewrite Hrecent. reflexivity.
  - intros sandbox exchange connected orders Hne Hsandbox Hnew Hconnect Hboost.
    run_handler. rewrite Hnow. simpl. rewrite Hrecent. simpl.
    destruct recent as [|signal others]; [destruct (Hne eq_refl) |].
    simpl in *. rewrite Hsandbox. simpl. rewrite Hnew. simpl.
    rewrite Hconnect. simpl. rewrite Hboost. reflexivity.
Qed.

(** The theorem without recent signals, and with one signal where
    [connect] answers [False]. *)
Lemma scheduled_run_trades_only_recent_signals_witness :
  execute_trade_signals (app_demo_world true []) fresh
  = (Done tt,
     {| app_clock := 2;
        app_trace := [GetAllRecentSignals 1704067200 (Some "signals");
                      GetUtcNowRounded] |}) /\
  execute_trade_signals (app_demo_world false [entry_signal]) fresh
  = (Done tt,
     {| app_clock := 6;
        app_trace := [BuySideBoost 7 [entry_signal] (1 # 1000);
                      ExchangeConnect 7 (Some "bybit-secret") false;
                      NewExchange (Some "bybit") (Some "USDT");
                      GetEnvVar "SANDBOX";
                      GetAllRecentSignals 1704067200 (Some "signals");
                      GetUtcNowRounded] |}).
Proof.
  split.
  - destruct (scheduled_run_trades_only_recent_signals (app_demo_world true [])
                fresh 1704067200 [] eq_refl eq_refl) as [Hnone _].
    apply Hnone. reflexivity.
  - destruct (scheduled_run_trades_only_recent_signals
                (app_demo_world false [entry_signal]) fresh 1704067200
                [entry_signal] eq_refl eq_refl) as [_ Hsome].
    apply (Hsome false 7 false [placed_order]);
      [discriminate | reflexivity | reflexivity | reflexivity | reflexivity].
Defined.
